(** * pkg/terraform/exec: the glue between terraform's commands and the installer

    A shallow embedding of [exec.go]: the command table [commands], the
    [runner] with its deferred calls, the exported wrappers [Apply],
    [Destroy], [Init] and [Version], the shutdown channel of
    [makeShutdownCh] and [globalPluginDirs].

    Process-wide state ([os.Stderr], the output of the standard logger) is
    threaded explicitly; calls into other packages are recorded, in program
    order, in a trace. What the file imports from elsewhere is left
    open: the handlers' [Run] and terraform's version variables are
    section variables, the rest ([logutils]' level check, [filepath.Join],
    the scanner's line splitting, the signal lists) the fields of
    [Imports]. *)

From Stdlib Require Import ZArith.
From stdpp Require Import gmap strings list.

Local Open Scope string_scope.
Local Open Scope list_scope.
Local Open Scope Z_scope.

(** ** Values *)

(** [os.Signal], by signal number. *)
Definition Signal := Z.
(** [*os.File], by identity. *)
Definition File := nat.
(** A channel, by identity. *)
Definition Chan := nat.

(** The [io.Writer]s the package handles. *)
Inductive Writer : Type :=
| Discard                                                   (* ioutil.Discard *)
| LevelFilter (Levels : list string) (MinLevel : string) (W : Writer)
                                                            (* &logutils.LevelFilter{...} *)
| FileWriter (f : File)                                     (* an *os.File *)
| Sink (n : nat).                                           (* a writer of the caller *)

#[global] Instance Writer_eq_dec : EqDecision Writer.
Proof.
  intros w1; induction w1 as [|ls1 m1 w1 IH|f1|n1]; intros [|ls2 m2 w2|f2|n2];
    try (right; discriminate); try (left; reflexivity).
  - destruct (decide (ls1 = ls2)) as [->|]; [|right; congruence].
    destruct (decide (m1 = m2)) as [->|]; [|right; congruence].
    destruct (IH w2) as [->|]; [left; reflexivity | right; congruence].
  - destruct (decide (f1 = f2)) as [->|]; [left; reflexivity | right; congruence].
  - destruct (decide (n1 = n2)) as [->|]; [left; reflexivity | right; congruence].
Defined.

(** Where written bytes end up. *)
Inductive Dest : Type :=
| DFile (f : File)
| DSink (n : nat).

(** [(T, error)] results; an error is its message. *)
Inductive Result (A : Type) : Type :=
| Ok (a : A)
| Err (msg : string).
Arguments Ok {A} a.
Arguments Err {A} msg.

(** [cli.BasicUi] and [command.Meta], with the fields [runner] sets. *)
Record BasicUi : Type := mkBasicUi {
  Ui_Writer : Writer;
  Ui_ErrorWriter : Writer
}.

Record Meta : Type := mkMeta {
  Color : bool;
  GlobalPluginDirs : list string;
  Ui : BasicUi;
  OverrideDataDir : string;
  ShutdownCh : Chan
}.

(** The two [cli.Command]s the table constructs. [Destroy] is [false] in a
    literal that does not set it. *)
Inductive Command : Type :=
| ApplyCommand (meta : Meta) (Destroy : bool)
| InitCommand (meta : Meta).

(** [type cmdFunc func(command.Meta) cli.Command] *)
Abbreviation cmdFunc := (Meta -> Command).

(** ** The command table *)

Definition commands : gmap string cmdFunc :=
  <["apply" := fun meta => ApplyCommand meta false]>
  (<["destroy" := fun meta => ApplyCommand meta true]>
  (<["init" := fun meta => InitCommand meta]> ∅)).

(** ** Version *)

Section Version.
(** [version.Version] and [version.Prerelease] of the vendored terraform. *)
Variables version_Version version_Prerelease : string.

(** [fmt.Fprintf(&buf, format, s)] with one [%s]: the buffer grows by the
    text before the verb, the argument, and nothing else. *)
Definition Fprintf_buf (buf : string) (before s : string) : string :=
  buf +:+ before +:+ s.

Definition Version : string :=
  let versionString := "" in
  let versionString := Fprintf_buf versionString "Terraform v" version_Version in
  let versionString :=
    if bool_decide (version_Prerelease ≠ "")
    then Fprintf_buf versionString "-" version_Prerelease
    else versionString in
  versionString.
End Version.

(** ** What the package imports *)

(** The imported names whose code lives in other packages (or in the
    platform files of this one). Nothing is assumed about any of them. *)
Class Imports : Type := {
  (** The two signal lists of the platform files. *)
  ignoreSignals : list Signal;
  forwardSignals : list Signal;
  (** [logging.ValidLevels]. *)
  ValidLevels : list string;
  (** The [Check] method of [logutils.LevelFilter]: does the filter with
      these levels and this minimum let the line through? *)
  LevelFilter_Check : list string -> string -> string -> bool;
  (** The lines [bufio.Scanner] yields, with its default split function,
      from the bytes written to a pipe. *)
  ScanLines : string -> list string;
  (** [filepath.Join], [runtime.GOOS], [runtime.GOARCH]. *)
  Join : list string -> string;
  GOOS : string;
  GOARCH : string
}.

(** ** Process state and trace *)

(** The process-wide state [runner] reads and writes, and what the
    environment answers to its three queries during one call. *)
Record World : Type := mkWorld {
  os_Stderr : File;                       (* the variable os.Stderr *)
  log_output : Writer;                    (* the standard logger's output *)
  chans : nat;                            (* channels made so far *)
  LogLevel : string;                      (* logging.LogLevel() *)
  configDir : Result string;              (* configDir() *)
  os_Pipe : Result (File * File)          (* os.Pipe(): read end, write end *)
}.

(** The goroutines the package starts. *)
Inductive Goroutine : Type :=
| GForward (signalCh resultCh : Chan)     (* the loop of makeShutdownCh *)
| GScanner (outR : File) (lf : Writer).   (* the loop of runner *)

(** Calls that leave [runner], in program order. *)
Inductive Event : Type :=
| EvLogSetOutput (w : Writer)
| EvMakeChan (c : Chan) (cap : nat)
| EvNotify (c : Chan) (sigs : list Signal)
| EvReset (sigs : list Signal)
| EvGo (g : Goroutine)
| EvCleanupClients
| EvFprintf (w : Writer) (text : string)
| EvMeta (meta : Meta)                    (* the command.Meta literal is built *)
| EvPipe (r : Result (File * File))
| EvClose (f : File)
| EvRun (c : Command) (args : list string) (code : Z).

Record St : Type := mkSt {
  world : World;
  trace : list Event
}.

(** How a call of [runner] ends: [return code], or a run-time panic that
    unwinds through the deferred calls. *)
Inductive Outcome : Type :=
| Returned (code : Z)
| Panicked (why : string).

(** ** A state monad for the package's statements *)

Definition M (A : Type) : Type := St -> A * St.

#[global] Instance M_ret : MRet M := fun _ a st => (a, st).
#[global] Instance M_bind : MBind M :=
  fun _ _ f m st => let '(a, st') := m st in f a st'.

Definition emit (e : Event) : M unit :=
  fun st => (tt, mkSt (world st) (trace st ++ [e])).
Definition gets {A : Type} (f : World -> A) : M A :=
  fun st => (f (world st), st).
Definition modify (f : World -> World) : M unit :=
  fun st => (tt, mkSt (f (world st)) (trace st)).

Definition set_os_Stderr (f : File) (w : World) : World :=
  mkWorld f (log_output w) (chans w) (LogLevel w) (configDir w) (os_Pipe w).
Definition set_log_output (o : Writer) (w : World) : World :=
  mkWorld (os_Stderr w) o (chans w) (LogLevel w) (configDir w) (os_Pipe w).
Definition set_chans (n : nat) (w : World) : World :=
  mkWorld (os_Stderr w) (log_output w) n (LogLevel w) (configDir w) (os_Pipe w).

(** [log.SetOutput(w)] *)
Definition log_SetOutput (w : Writer) : M unit :=
  modify (set_log_output w);; emit (EvLogSetOutput w).
(** [make(chan T, cap)] *)
Definition make_chan (cap : nat) : M Chan :=
  c ← gets chans; modify (set_chans (S c));; emit (EvMakeChan c cap);; mret c.
(** [signal.Notify(c, sigs...)] and [signal.Reset(sigs...)] *)
Definition signal_Notify (c : Chan) (sigs : list Signal) : M unit :=
  emit (EvNotify c sigs).
Definition signal_Reset (sigs : list Signal) : M unit :=
  emit (EvReset sigs).
(** [go func() {...}()] *)
Definition go (g : Goroutine) : M unit := emit (EvGo g).
(** [plugin.CleanupClients()] *)
Definition plugin_CleanupClients : M unit := emit EvCleanupClients.
(** [fmt.Fprintf(w, ...)], the formatted text given. *)
Definition Fprintf (w : Writer) (text : string) : M unit :=
  emit (EvFprintf w text).
(** [os.Pipe()] *)
Definition call_os_Pipe : M (Result (File * File)) :=
  r ← gets os_Pipe; emit (EvPipe r);; mret r.
(** [f.Close()] *)
Definition Close (f : File) : M unit := emit (EvClose f).

(** The line terminator of the scanner's format. *)
Definition newline : string := String (Ascii.ascii_of_nat 10) "".

(** Deferred calls: [defer] pushes, leaving the function runs them last
    in, first out. *)
Definition defer (d : M unit) (ds : list (M unit)) : list (M unit) := d :: ds.

Fixpoint run_deferred (ds : list (M unit)) : M unit :=
  match ds with
  | [] => mret tt
  | d :: ds' => d;; run_deferred ds'
  end.

(** ** The package's functions *)

Section Exec.
Context {I : Imports}.
(** [(cli.Command).Run]: the handler, which may do anything to the
    process state and answers with an exit code. *)
Variable Run : Command -> list string -> World -> Z * World.

Definition call_Run (c : Command) (args : list string) : M Z :=
  fun st =>
    let '(code, w') := Run c args (world st) in
    (code, mkSt w' (trace st ++ [EvRun c args code])).

(** The slice [handle] of [makeShutdownCh], after its two appends. *)
Definition handled_signals : list Signal :=
  let handle := [] in
  let handle := handle ++ ignoreSignals in
  let handle := handle ++ forwardSignals in
  handle.

(** [makeShutdownCh]: the channel, and the closure that resets the
    signals. *)
Definition makeShutdownCh : M (Chan * M unit) :=
  resultCh ← make_chan 0;
  signalCh ← make_chan 4;
  let handle := handled_signals in
  signal_Notify signalCh handle;;
  go (GForward signalCh resultCh);;
  mret (resultCh, signal_Reset handle).

Definition globalPluginDirs (stderr : Writer) : M (list string) :=
  let ret := [] in
  r ← gets configDir;
  match r with
  | Err err =>
      Fprintf stderr ("Error finding global config directory: " +:+ err);;
      mret ret
  | Ok dir =>
      let machineDir := GOOS +:+ "_" +:+ GOARCH in
      let ret := ret ++ [Join [dir; "plugins"]] in
      let ret := ret ++ [Join [dir; "plugins"; machineDir]] in
      mret ret
  end.

(** The writer [lf] the first statement of [runner] chooses. *)
Definition level_filter (level : string) (stdout : Writer) : Writer :=
  let lf := Discard in
  if bool_decide (level ≠ "")
  then LevelFilter ValidLevels level stdout
  else lf.

Definition runner (cmd dir : string) (args : list string)
           (stdout stderr : Writer) : M Outcome :=
  level ← gets LogLevel;
  let lf := level_filter level stdout in
  log_SetOutput lf;;
  stderr0 ← gets os_Stderr;          (* the deferred call's argument, evaluated now *)
  let ds := defer (log_SetOutput (FileWriter stderr0)) [] in
  let ds := defer plugin_CleanupClients ds in
  '(sdCh, cancel) ← makeShutdownCh;
  let ds := defer cancel ds in
  dirs ← globalPluginDirs stderr;
  let meta := {| Color := false;
                 GlobalPluginDirs := dirs;
                 Ui := {| Ui_Writer := stdout; Ui_ErrorWriter := stderr |};
                 OverrideDataDir := dir;
                 ShutdownCh := sdCh |} in
  emit (EvMeta meta);;
  let f := commands !! cmd in
  oldStderr ← gets os_Stderr;
  p ← call_os_Pipe;
  match p with
  | Err err =>
      Fprintf stderr ("error creating Pipe: " +:+ err);;
      run_deferred ds;;
      mret (Returned 1)
  | Ok (outR, outW) =>
      modify (set_os_Stderr outW);;
      go (GScanner outR lf);;
      let ds := defer (Close outW;; modify (set_os_Stderr oldStderr)) ds in
      match f with
      | None =>
          (* calling the nil func value *)
          run_deferred ds;;
          mret (Panicked "invalid memory address or nil pointer dereference")
      | Some f =>
          code ← call_Run (f meta) args;
          run_deferred ds;;
          mret (Returned code)
      end
  end.

Definition Apply (datadir : string) (args : list string) (stdout stderr : Writer) : M Outcome :=
  runner "apply" datadir args stdout stderr.
Definition Destroy (datadir : string) (args : list string) (stdout stderr : Writer) : M Outcome :=
  runner "destroy" datadir args stdout stderr.
Definition Init (datadir : string) (args : list string) (stdout stderr : Writer) : M Outcome :=
  runner "init" datadir args stdout stderr.

(** One call from a process state, with an empty trace. *)
Definition exec {A : Type} (m : M A) (w : World) : A * St := m (mkSt w []).

(** *** What a writer does with a write *)

Fixpoint Write (w : Writer) (p : string) : list (Dest * string) :=
  match w with
  | Discard => []
  | LevelFilter levels min w' => if LevelFilter_Check levels min p then Write w' p else []
  | FileWriter f => [(DFile f, p)]
  | Sink n => [(DSink n, p)]
  end.

(** The scanner goroutine of [runner], over the bytes [text] written to
    the pipe: one [Fprintf(lf, "%s\n", line)] per line. It may be cut
    short after [n] lines, when the process ends first. *)
Definition scanner (lf : Writer) (text : string) (n : nat) : list (Dest * string) :=
  flat_map (fun line => Write lf (line +:+ newline)) (take n (ScanLines text)).

(** What a goroutine writes when the pipe carries [text]. *)
Definition goroutine_writes (g : Goroutine) (text : string) (n : nat) : list (Dest * string) :=
  match g with
  | GScanner _ lf => scanner lf text n
  | GForward _ _ => []
  end.
End Exec.

(** ** The configured log level

    [logging.LogLevel], in the vendored [helper/logging], reads the
    environment variable TF_LOG: an empty value is answered as it is, a
    valid level, in whatever case, is answered in upper case, and any
    other value is answered as "TRACE". For such a value it also logs a
    warning through the standard logger, whose output [runner] has not
    yet set at that point; that line is not part of the trace. *)

Section Logging.
Context {I : Imports}.
(** [strings.ToUpper] *)
Variable ToUpper : string -> string.



End Logging.

(** ** The shutdown channel at run time

    The goroutine of [makeShutdownCh] and its two channels as a transition
    system: the runtime delivers signals, the goroutine moves them from
    [signalCh] to [resultCh], the handler receives from [resultCh]. *)

Section Bridge.
Context {I : Imports}.

(** [signal.Notify(c, sigs...)] relays the signals given, and every
    signal when none is given. *)
Definition relays (sigs : list Signal) (s : Signal) : bool :=
  match sigs with
  | [] => true
  | _ :: _ => bool_decide (s ∈ sigs)
  end.

Record Bridge : Type := mkBridge {
  notifying : bool;           (* after Notify, before Reset *)
  signalCh : list Signal;     (* the buffer of signalCh, oldest first *)
  sending : option Signal;    (* the goroutine waits in resultCh <- struct{}{};
                                 the signal it took is kept for the record *)
  received : list Signal      (* the events taken from resultCh, each with the
                                 signal that caused it *)
}.

(** What is in flight: taken by the goroutine, or still in the buffer. *)
Definition in_flight (b : Bridge) : list Signal :=
  option_list (sending b) ++ signalCh b.

(** [cap(signalCh)] *)
Definition signalCh_cap : nat := 4.

Definition started : Bridge := mkBridge true [] None [].

Inductive Action : Type :=
| Deliver (s : Signal)        (* the runtime has a signal for the process *)
| Forward                     (* <-signalCh *)
| Consume                     (* resultCh <- struct{}{} meets its receiver *)
| Cancel.                     (* signal.Reset(handle...) *)

(** One action; [None] when the action cannot happen in this state. The
    runtime never blocks on [signalCh]: a signal that finds the buffer
    full is dropped. *)
Definition step (a : Action) (b : Bridge) : option Bridge :=
  match a with
  | Deliver s =>
      if notifying b && relays handled_signals s
         && bool_decide (length (signalCh b) < signalCh_cap)%nat
      then Some (mkBridge (notifying b) (signalCh b ++ [s]) (sending b) (received b))
      else Some b
  | Forward =>
      match sending b, signalCh b with
      | None, s :: rest => Some (mkBridge (notifying b) rest (Some s) (received b))
      | _, _ => None
      end
  | Consume =>
      match sending b with
      | Some s => Some (mkBridge (notifying b) (signalCh b) None (received b ++ [s]))
      | None => None
      end
  | Cancel => Some (mkBridge false (signalCh b) (sending b) (received b))
  end.

(** A schedule: any interleaving of the four actions. *)
Fixpoint run (acts : list Action) (b : Bridge) : option Bridge :=
  match acts with
  | [] => Some b
  | a :: acts' =>
      match step a b with
      | Some b' => run acts' b'
      | None => None
      end
  end.

(** The signals a schedule delivers, in order. *)
Definition delivered (acts : list Action) : list Signal :=
  omap (fun a => match a with Deliver s => Some s | _ => None end) acts.

(** The reader of [resultCh] draining: goroutine and reader alternate
    until nothing is left to move. *)
Fixpoint drain (fuel : nat) (b : Bridge) : Bridge :=
  match fuel with
  | O => b
  | S fuel' =>
      match step Consume b with
      | Some b' => drain fuel' b'
      | None =>
          match step Forward b with
          | Some b' => drain fuel' b'
          | None => b
          end
      end
  end.

Definition settle (b : Bridge) : Bridge :=
  drain (2 * length (signalCh b) + 1) b.

Definition deliver (s : Signal) (b : Bridge) : Bridge :=
  default b (step (Deliver s) b).

(** Signals arriving one by one, the reader draining between them. *)
Definition run_drained (sigs : list Signal) (b : Bridge) : Bridge :=
  foldl (fun b s => settle (deliver s b)) b sigs.

Definition shutdown_events (sigs : list Signal) : list Signal :=
  received (run_drained sigs started).
End Bridge.

(** ** Reading a trace *)

Definition is_Notify (e : Event) : bool :=
  match e with EvNotify _ _ => true | _ => false end.
Definition is_Reset (e : Event) : bool :=
  match e with EvReset _ => true | _ => false end.
Definition is_Meta (e : Event) : bool :=
  match e with EvMeta _ => true | _ => false end.
Definition is_Run (e : Event) : bool :=
  match e with EvRun _ _ _ => true | _ => false end.
Definition is_Scanner (e : Event) : bool :=
  match e with EvGo (GScanner _ _) => true | _ => false end.

(** The calls that start and cancel the shutdown bridge. *)
Definition is_bridge_call (e : Event) : bool := is_Notify e || is_Reset e.

(** The shutdown bridge was started: [signal.Notify] was called. *)
Definition bridge_started (tr : list Event) : bool := existsb is_Notify tr.
(** The bridge was cancelled: [signal.Reset] was called. *)
Definition bridge_cancelled (tr : list Event) : bool := existsb is_Reset tr.
(** A [command.Meta] was built. *)
Definition context_built (tr : list Event) : bool := existsb is_Meta tr.
(** A handler's [Run] was called. *)
Definition handler_invoked (tr : list Event) : bool := existsb is_Run tr.
(** The scanner goroutine was started. *)
Definition interceptor_started (tr : list Event) : bool := existsb is_Scanner tr.

(** The goroutines a trace starts. *)
Definition spawned (tr : list Event) : list Goroutine :=
  omap (fun e => match e with EvGo g => Some g | _ => None end) tr.
(** The texts a trace writes to [w] with [Fprintf]. *)
Definition printed (w : Writer) (tr : list Event) : list string :=
  omap (fun e => match e with
                 | EvFprintf w' text => if bool_decide (w' = w) then Some text else None
                 | _ => None end) tr.

(** ** A sample environment

    Concrete imports, a handler and process states, for the examples: the
    signal lists of the unix build (SIGINT ignored, SIGTERM forwarded),
    terraform's five levels, a filter that lets every line through, a
    scanner cutting at line feeds, paths joined with a slash. *)

Fixpoint split_lines (cur : string) (s : string) : list string :=
  match s with
  | EmptyString => if bool_decide (cur = "") then [] else [cur]
  | String c s' =>
      if bool_decide (c = Ascii.ascii_of_nat 10)
      then cur :: split_lines "" s'
      else split_lines (cur +:+ String c "") s'
  end.

Definition unix_imports : Imports := {|
  ignoreSignals := [2];
  forwardSignals := [15];
  ValidLevels := ["TRACE"; "DEBUG"; "INFO"; "WARN"; "ERROR"];
  LevelFilter_Check := fun _ _ _ => true;
  ScanLines := split_lines "";
  Join := String.concat "/";
  GOOS := "linux";
  GOARCH := "amd64"
|}.

(** A handler that answers by command, and leaves [os.Stderr] changed. *)
Definition sample_Run (c : Command) (args : list string) (w : World) : Z * World :=
  (match c with
   | ApplyCommand _ false => 0
   | ApplyCommand _ true => 3
   | InitCommand _ => 2
   end, set_os_Stderr 99%nat w).

(** No log level set, a config directory, a pipe. *)
Definition quiet_world : World :=
  mkWorld 2%nat (FileWriter 2%nat) 0%nat "" (Ok "/root/.terraform.d") (Ok (7%nat, 8%nat)).
(** No pipe to be had. *)
Definition no_pipe_world : World :=
  mkWorld 2%nat (FileWriter 2%nat) 0%nat "" (Ok "/root/.terraform.d") (Err "too many open files").
(** No config directory. *)
Definition no_home_world : World :=
  mkWorld 2%nat (FileWriter 2%nat) 0%nat "" (Err "user: Current not implemented") (Ok (7%nat, 8%nat)).

(** ** What one call of [runner] does, in closed form *)

Section Views.
Context {I : Imports}.

(** What [globalPluginDirs] returns in [w], and what it prints. *)
Definition plugin_dirs (w : World) : list string :=
  match configDir w with
  | Ok dir => [Join [dir; "plugins"]; Join [dir; "plugins"; GOOS +:+ "_" +:+ GOARCH]]
  | Err _ => []
  end.
Definition plugin_warning (stderr : Writer) (w : World) : list Event :=
  match configDir w with
  | Ok _ => []
  | Err err => [EvFprintf stderr ("Error finding global config directory: " +:+ err)]
  end.

(** The [command.Meta] a call builds. *)
Definition built_meta (dir : string) (stdout stderr : Writer) (w : World) : Meta :=
  {| Color := false;
     GlobalPluginDirs := plugin_dirs w;
     Ui := {| Ui_Writer := stdout; Ui_ErrorWriter := stderr |};
     OverrideDataDir := dir;
     ShutdownCh := chans w |}.

(** The trace up to [os.Pipe], and the trace of the three deferred calls
    every path ends with. *)
Definition prologue (dir : string) (stdout stderr : Writer) (w : World) : list Event :=
  [EvLogSetOutput (level_filter (LogLevel w) stdout);
   EvMakeChan (chans w) 0;
   EvMakeChan (S (chans w)) 4;
   EvNotify (S (chans w)) handled_signals;
   EvGo (GForward (S (chans w)) (chans w))]
  ++ plugin_warning stderr w
  ++ [EvMeta (built_meta dir stdout stderr w); EvPipe (os_Pipe w)].
Definition epilogue (w : World) : list Event :=
  [EvReset handled_signals; EvCleanupClients; EvLogSetOutput (FileWriter (os_Stderr w))].

(** The process state after the set-up, and the state the handler is
    called in. *)
Definition world_set_up (stdout : Writer) (w : World) : World :=
  set_chans (S (S (chans w))) (set_log_output (level_filter (LogLevel w) stdout) w).
Definition world_at_Run (stdout : Writer) (outW : File) (w : World) : World :=
  set_os_Stderr outW (world_set_up stdout w).
(** The state the deferred calls leave, from the state [w'] they find. *)
Definition world_restored (w w' : World) : World :=
  set_log_output (FileWriter (os_Stderr w)) (set_os_Stderr (os_Stderr w) w').
End Views.
(** ** More readers, and more samples *)

Definition is_Close (e : Event) : bool :=
  match e with EvClose _ => true | _ => false end.
Definition is_Cleanup (e : Event) : bool :=
  match e with EvCleanupClients => true | _ => false end.

(** Every [Fprintf] of a trace goes to [w]. *)
Definition prints_only_to (w : Writer) (tr : list Event) : Prop :=
  Forall (fun e => match e with EvFprintf w' _ => w' = w | _ => True end) tr.

(** The [Meta] field of a command, and whether it is a destroy. *)
Definition Command_Meta (c : Command) : Meta :=
  match c with
  | ApplyCommand meta _ => meta
  | InitCommand meta => meta
  end.
Definition is_destroy (c : Command) : bool :=
  match c with
  | ApplyCommand _ d => d
  | InitCommand _ => false
  end.

Section Burst.
Context {I : Imports}.

(** A signal arriving with the goroutine at its loop: when it waits in
    [<-signalCh] it takes a signal at once; when it waits in
    [resultCh <- struct{}{}] the signal stays in the buffer, or is
    dropped when the buffer is full. *)
Definition deliver_taking (s : Signal) (b : Bridge) : Bridge :=
  let b' := deliver s b in
  default b' (step Forward b').

(** Signals arriving in a burst, nothing being received from [resultCh]
    meanwhile. *)
Definition burst (sigs : list Signal) (b : Bridge) : Bridge :=
  foldl (fun b s => deliver_taking s b) b sigs.
End Burst.

(** Imports with both signal lists empty. *)
Definition no_signal_imports : Imports := {|
  ignoreSignals := [];
  forwardSignals := [];
  ValidLevels := ["TRACE"; "DEBUG"; "INFO"; "WARN"; "ERROR"];
  LevelFilter_Check := fun _ _ _ => true;
  ScanLines := split_lines "";
  Join := String.concat "/";
  GOOS := "linux";
  GOARCH := "amd64"
|}.

(** Imports whose filter lets a line through when it starts with the
    minimum level in brackets. *)
Definition tagged_imports : Imports := {|
  ignoreSignals := [2];
  forwardSignals := [15];
  ValidLevels := ["TRACE"; "DEBUG"; "INFO"; "WARN"; "ERROR"];
  LevelFilter_Check := fun _ min line => String.prefix ("[" +:+ min +:+ "]") line;
  ScanLines := split_lines "";
  Join := String.concat "/";
  GOOS := "linux";
  GOARCH := "amd64"
|}.

(** The log level set to WARN. *)
Definition warn_level_world : World :=
  mkWorld 2%nat (FileWriter 2%nat) 0%nat "WARN" (Ok "/root/.terraform.d") (Ok (7%nat, 8%nat)).

(** * Theorems *)

Ltac unfold_calls :=
  unfold exec, runner, makeShutdownCh, globalPluginDirs, call_os_Pipe,
    call_Run, log_SetOutput, make_chan, signal_Notify, signal_Reset, go,
    plugin_CleanupClients, Fprintf, Close, defer, run_deferred, emit, gets,
    modify, mbind, mret, M_bind, M_ret.

Ltac unfold_views :=
  unfold prologue, epilogue, plugin_warning, plugin_dirs, built_meta,
    world_at_Run, world_set_up, world_restored.

Section RunnerPaths.
Context {I : Imports}.
Variable Run : Command -> list string -> World -> Z * World.

Lemma runner_pipe_fails cmd dir args stdout stderr w err :
  os_Pipe w = Err err ->
  exec (runner Run cmd dir args stdout stderr) w =
  (Returned 1,
   mkSt (world_restored w (world_set_up stdout w))
        (prologue dir stdout stderr w
         ++ [EvFprintf stderr ("error creating Pipe: " +:+ err)]
         ++ epilogue w)).
Proof.
  intros Hp. unfold_calls. unfold_views.
  destruct w as [se lo ch lv cd pp]; simpl in Hp; subst pp.
  destruct cd; reflexivity.
Qed.

Lemma runner_nil_handler cmd dir args stdout stderr w outR outW :
  os_Pipe w = Ok (outR, outW) ->
  commands !! cmd = None ->
  exec (runner Run cmd dir args stdout stderr) w =
  (Panicked "invalid memory address or nil pointer dereference",
   mkSt (world_restored w (world_at_Run stdout outW w))
        (prologue dir stdout stderr w
         ++ [EvGo (GScanner outR (level_filter (LogLevel w) stdout)); EvClose outW]
         ++ epilogue w)).
Proof.
  intros Hp Hc. unfold_calls. unfold_views. rewrite Hc.
  destruct w as [se lo ch lv cd pp]; simpl in Hp; subst pp.
  destruct cd; reflexivity.
Qed.

Lemma runner_dispatch cmd f dir args stdout stderr w outR outW :
  os_Pipe w = Ok (outR, outW) ->
  commands !! cmd = Some f ->
  let c := f (built_meta dir stdout stderr w) in
  let r := Run c args (world_at_Run stdout outW w) in
  exec (runner Run cmd dir args stdout stderr) w =
  (Returned r.1,
   mkSt (world_restored w r.2)
        (prologue dir stdout stderr w
         ++ [EvGo (GScanner outR (level_filter (LogLevel w) stdout));
             EvRun c args r.1; EvClose outW]
         ++ epilogue w)).
Proof.
  intros Hp Hc. unfold_calls. unfold_views. rewrite Hc.
  destruct w as [se lo ch lv cd pp]; simpl in Hp; subst pp.
  destruct cd; simpl; destruct (Run _ _ _); reflexivity.
Qed.
End RunnerPaths.

(** ** Version *)

(** C9 — [Version] is a function of the version and prerelease strings
    alone: with an empty prerelease it is "Terraform v<version>", with a
    non-empty one "Terraform v<version>-<prerelease>". It takes and returns
    no process state, so it has no effect besides its result. *)
Theorem Version_format (v p : string) :
  (p = "" -> Version v p = "Terraform v" +:+ v) /\
  (p ≠ "" -> Version v p = "Terraform v" +:+ v +:+ "-" +:+ p).
Proof.
  unfold Version, Fprintf_buf. split; intros Hp.
  - subst p. reflexivity.
  - rewrite bool_decide_eq_true_2 by exact Hp. reflexivity.
Qed.

Lemma Version_format_witness :
  Version "0.11.8" "" = "Terraform v0.11.8" /\
  Version "0.11.8" "beta1" = "Terraform v0.11.8-beta1".
Proof.
  split.
  - apply (proj1 (Version_format "0.11.8" "")). reflexivity.
  - apply (proj2 (Version_format "0.11.8" "beta1")). discriminate.
Defined.

(** ** The command table *)

Lemma commands_lookup (cmd : string) :
  commands !! cmd =
  if bool_decide (cmd = "apply") then Some (fun meta => ApplyCommand meta false)
  else if bool_decide (cmd = "destroy") then Some (fun meta => ApplyCommand meta true)
  else if bool_decide (cmd = "init") then Some (fun meta => InitCommand meta)
  else None.
Proof.
  unfold commands.
  repeat case_bool_decide; subst; simplify_map_eq; reflexivity.
Qed.

Lemma commands_dom : dom commands = {["apply"; "destroy"; "init"]}.
Proof.
  unfold commands. rewrite !dom_insert_L, dom_empty_L. set_solver.
Qed.

(** C10 — the table has exactly the keys "apply", "destroy" and "init";
    "apply" and "destroy" both build an [ApplyCommand], the second with
    [Destroy] set; "init" builds an [InitCommand]; and [Apply], [Destroy]
    and [Init] are [runner] at those three keys, so that with a pipe each
    of them reaches its handler. The table is a constant: no statement of
    the package assigns to it, and the process state carries no copy. *)
Theorem commands_registry :
  dom commands = {["apply"; "destroy"; "init"]} /\
  commands !! "apply" = Some (fun meta => ApplyCommand meta false) /\
  commands !! "destroy" = Some (fun meta => ApplyCommand meta true) /\
  commands !! "init" = Some (fun meta => InitCommand meta) /\
  (forall (I : Imports) Run datadir args stdout stderr,
      Apply Run datadir args stdout stderr = runner Run "apply" datadir args stdout stderr /\
      Destroy Run datadir args stdout stderr = runner Run "destroy" datadir args stdout stderr /\
      Init Run datadir args stdout stderr = runner Run "init" datadir args stdout stderr) /\
  (forall (I : Imports) Run datadir args stdout stderr w p,
      os_Pipe w = Ok p ->
      handler_invoked (trace (exec (Apply Run datadir args stdout stderr) w).2) = true /\
      handler_invoked (trace (exec (Destroy Run datadir args stdout stderr) w).2) = true /\
      handler_invoked (trace (exec (Init Run datadir args stdout stderr) w).2) = true).
Proof.
  split; [exact commands_dom|].
  do 3 (split; [reflexivity|]).
  split; [intros; repeat split|].
  intros I Run datadir args stdout stderr w [outR outW] Hp.
  unfold Apply, Destroy, Init.
  rewrite (runner_dispatch Run "apply" _ datadir args stdout stderr w outR outW Hp eq_refl).
  rewrite (runner_dispatch Run "destroy" _ datadir args stdout stderr w outR outW Hp eq_refl).
  rewrite (runner_dispatch Run "init" _ datadir args stdout stderr w outR outW Hp eq_refl).
  unfold handler_invoked, prologue; simpl.
  rewrite !existsb_app; simpl.
  rewrite !orb_true_r. repeat split.
Qed.

Lemma commands_registry_witness :
  @handler_invoked
    (trace (exec (@Apply unix_imports sample_Run "data" [] (Sink 1) (Sink 2)) quiet_world).2) = true /\
  @handler_invoked
    (trace (exec (@Destroy unix_imports sample_Run "data" [] (Sink 1) (Sink 2)) quiet_world).2) = true /\
  @handler_invoked
    (trace (exec (@Init unix_imports sample_Run "data" [] (Sink 1) (Sink 2)) quiet_world).2) = true.
Proof.
  apply (proj2 (proj2 (proj2 (proj2 (proj2 commands_registry))))
           unix_imports sample_Run "data" [] (Sink 1) (Sink 2) quiet_world (7%nat, 8%nat)).
  reflexivity.
Defined.

(** ** Plugin directories *)

Section PluginDirs.
Context {I : Imports}.
Variable Run : Command -> list string -> World -> Z * World.

(** C8 — with a config directory [base], [globalPluginDirs] returns the
    two paths [Join base "plugins"] and [Join base "plugins" "<os>_<arch>"]
    in this order and prints nothing; without one it prints the error to
    the writer it was given and returns the empty list. The failure does
    not stop [runner]: for a known command and with a pipe, the handler
    runs on a [command.Meta] with no plugin directories and its exit code
    is returned. *)
Theorem globalPluginDirs_result (stderr : Writer) (w : World) :
  (forall base, configDir w = Ok base ->
     exec (globalPluginDirs stderr) w =
     ([Join [base; "plugins"]; Join [base; "plugins"; GOOS +:+ "_" +:+ GOARCH]],
      mkSt w [])) /\
  (forall err, configDir w = Err err ->
     exec (globalPluginDirs stderr) w =
     ([], mkSt w [EvFprintf stderr ("Error finding global config directory: " +:+ err)]) /\
     forall cmd f dir args stdout p,
       commands !! cmd = Some f -> os_Pipe w = Ok p ->
       exists meta w1,
         GlobalPluginDirs meta = [] /\
         (exec (runner Run cmd dir args stdout stderr) w).1
           = Returned (Run (f meta) args w1).1 /\
         EvRun (f meta) args (Run (f meta) args w1).1
           ∈ trace (exec (runner Run cmd dir args stdout stderr) w).2).
Proof.
  split.
  - intros base Hc. unfold_calls. simpl. rewrite Hc. reflexivity.
  - intros err Hc. split.
    + unfold_calls. simpl. rewrite Hc. reflexivity.
    + intros cmd f dir args stdout [outR outW] Hf Hp.
      exists (built_meta dir stdout stderr w), (world_at_Run stdout outW w).
      rewrite (runner_dispatch Run cmd f dir args stdout stderr w outR outW Hp Hf).
      cbn [fst snd trace]. split; [|split; [reflexivity|]].
      * simpl. unfold plugin_dirs. rewrite Hc. reflexivity.
      * rewrite !elem_of_app. right. left. right. left.
Qed.
End PluginDirs.

Lemma globalPluginDirs_result_witness :
  exec (@globalPluginDirs unix_imports (Sink 2)) quiet_world =
    (["/root/.terraform.d/plugins"; "/root/.terraform.d/plugins/linux_amd64"],
     mkSt quiet_world []) /\
  exec (@globalPluginDirs unix_imports (Sink 2)) no_home_world =
    ([], mkSt no_home_world
           [EvFprintf (Sink 2)
              "Error finding global config directory: user: Current not implemented"]) /\
  (exists meta w1,
      GlobalPluginDirs meta = [] /\
      (exec (@runner unix_imports sample_Run "init" "data" [] (Sink 1) (Sink 2)) no_home_world).1
        = Returned (sample_Run (InitCommand meta) [] w1).1 /\
      EvRun (InitCommand meta) [] (sample_Run (InitCommand meta) [] w1).1
        ∈ trace (exec (@runner unix_imports sample_Run "init" "data" [] (Sink 1) (Sink 2))
                   no_home_world).2).
Proof.
  split; [|split].
  - apply (proj1 (@globalPluginDirs_result unix_imports sample_Run (Sink 2) quiet_world)
             "/root/.terraform.d").
    reflexivity.
  - apply (proj2 (@globalPluginDirs_result unix_imports sample_Run (Sink 2) no_home_world)
             "user: Current not implemented").
    reflexivity.
  - exact (proj2 (proj2 (@globalPluginDirs_result unix_imports sample_Run (Sink 2) no_home_world)
                    "user: Current not implemented" eq_refl)
             "init" (fun meta => InitCommand meta) "data" [] (Sink 1) (7%nat, 8%nat)
             eq_refl eq_refl).
Defined.

(** ** The paths of [runner] *)

Lemma existsb_elem_of {A : Type} (p : A -> bool) (l : list A) (x : A) :
  x ∈ l -> p x = true -> existsb p l = true.
Proof.
  intros Hin Hp. apply existsb_exists. exists x. split; [|exact Hp].
  apply list_elem_of_In. exact Hin.
Qed.

Section Parts.
Context {I : Imports}.
Variables (dir : string) (stdout stderr : Writer) (w : World).

Lemma prologue_bridge_calls :
  List.filter is_bridge_call (prologue dir stdout stderr w)
  = [EvNotify (S (chans w)) handled_signals].
Proof. unfold prologue, plugin_warning. destruct (configDir w); reflexivity. Qed.

Lemma epilogue_bridge_calls :
  List.filter is_bridge_call (epilogue w) = [EvReset handled_signals].
Proof. reflexivity. Qed.

Lemma prologue_started : bridge_started (prologue dir stdout stderr w) = true.
Proof. reflexivity. Qed.

Lemma prologue_context : context_built (prologue dir stdout stderr w) = true.
Proof. unfold prologue, plugin_warning. destruct (configDir w); reflexivity. Qed.

Lemma prologue_no_handler : handler_invoked (prologue dir stdout stderr w) = false.
Proof. unfold prologue, plugin_warning. destruct (configDir w); reflexivity. Qed.

Lemma prologue_no_scanner : interceptor_started (prologue dir stdout stderr w) = false.
Proof. unfold prologue, plugin_warning. destruct (configDir w); reflexivity. Qed.

Lemma prologue_head :
  head (prologue dir stdout stderr w)
  = Some (EvLogSetOutput (level_filter (LogLevel w) stdout)).
Proof. reflexivity. Qed.

Lemma prologue_spawned :
  spawned (prologue dir stdout stderr w) = [GForward (S (chans w)) (chans w)].
Proof. unfold prologue, plugin_warning. destruct (configDir w); reflexivity. Qed.

Lemma prologue_printed :
  printed stderr (prologue dir stdout stderr w) = printed stderr (plugin_warning stderr w).
Proof.
  unfold prologue, plugin_warning. destruct (configDir w); simpl; [reflexivity|].
  case_bool_decide; reflexivity.
Qed.
End Parts.

Section RunnerClaims.
Context {I : Imports}.
Variable Run : Command -> list string -> World -> Z * World.

(** C1, as the code has it — for a name that is not in the table no
    handler is called, but the lookup comes late: [signal.Notify] has
    been called (with [signal.Reset] to follow, once) and the
    [command.Meta] has been built by then. [os.Stderr] is what it was
    when the call is over, and an exit code, where one is returned at
    all, is 1, from the failure of [os.Pipe]. *)
Theorem runner_unknown_command (cmd dir : string) (args : list string)
        (stdout stderr : Writer) (w : World) :
  commands !! cmd = None ->
  let r := exec (runner Run cmd dir args stdout stderr) w in
  handler_invoked (trace r.2) = false /\
  bridge_started (trace r.2) = true /\
  context_built (trace r.2) = true /\
  List.filter is_bridge_call (trace r.2)
    = [EvNotify (S (chans w)) handled_signals; EvReset handled_signals] /\
  os_Stderr (world r.2) = os_Stderr w /\
  (forall code, r.1 = Returned code -> code = 1 /\ exists err, os_Pipe w = Err err).
Proof.
  intros Hc r. subst r.
  destruct (os_Pipe w) as [[outR outW]|err] eqn:Hp.
  - rewrite (runner_nil_handler Run cmd dir args stdout stderr w outR outW Hp Hc).
    cbn [fst snd trace world].
    unfold handler_invoked, bridge_started, context_built.
    rewrite !existsb_app, !List.filter_app.
    fold (handler_invoked (prologue dir stdout stderr w)).
    fold (context_built (prologue dir stdout stderr w)).
    rewrite prologue_no_handler, prologue_context, prologue_bridge_calls.
    split_and!; try reflexivity. intros code Hcode. discriminate Hcode.
  - rewrite (runner_pipe_fails Run cmd dir args stdout stderr w err Hp).
    cbn [fst snd trace world].
    unfold handler_invoked, bridge_started, context_built.
    rewrite !existsb_app, !List.filter_app.
    fold (handler_invoked (prologue dir stdout stderr w)).
    fold (context_built (prologue dir stdout stderr w)).
    rewrite prologue_no_handler, prologue_context, prologue_bridge_calls.
    split_and!; try reflexivity.
    intros code Hcode. split; [congruence | exists err; reflexivity].
Qed.

(** C3, as the code has it — when [os.Pipe] fails, [runner] prints
    "error creating Pipe: <err>" to its [stderr] writer and returns 1.
    No handler is called, no scanner started and [os.Stderr] is not
    touched; but [signal.Notify] was called before the pipe was asked for,
    and [signal.Reset] is called, once, before the return. *)
Theorem runner_pipe_failure (cmd dir : string) (args : list string)
        (stdout stderr : Writer) (w : World) (err : string) :
  os_Pipe w = Err err ->
  let r := exec (runner Run cmd dir args stdout stderr) w in
  r.1 = Returned 1 /\
  handler_invoked (trace r.2) = false /\
  interceptor_started (trace r.2) = false /\
  List.filter is_bridge_call (trace r.2)
    = [EvNotify (S (chans w)) handled_signals; EvReset handled_signals] /\
  last (printed stderr (trace r.2)) = Some ("error creating Pipe: " +:+ err) /\
  os_Stderr (world r.2) = os_Stderr w.
Proof.
  intros Hp r. subst r.
  rewrite (runner_pipe_fails Run cmd dir args stdout stderr w err Hp).
  cbn [fst snd trace world].
  unfold handler_invoked, interceptor_started.
  rewrite !existsb_app, !List.filter_app.
  fold (handler_invoked (prologue dir stdout stderr w)).
  fold (interceptor_started (prologue dir stdout stderr w)).
  rewrite prologue_no_handler, prologue_no_scanner, prologue_bridge_calls.
  split_and!; try reflexivity.
  unfold printed. rewrite !omap_app. simpl.
  rewrite bool_decide_eq_true_2 by reflexivity.
  rewrite app_nil_r. apply last_snoc.
Qed.

(** Whatever non-empty string [logging.LogLevel] answers becomes the
    [MinLevel] of the filter the logger is given, and the call goes on
    as ever. *)
Lemma runner_level_installed (cmd : string) (f : cmdFunc) (dir : string)
        (args : list string) (stdout stderr : Writer) (w : World)
        (p : File * File) :
  LogLevel w ≠ "" ->
  commands !! cmd = Some f ->
  os_Pipe w = Ok p ->
  let r := exec (runner Run cmd dir args stdout stderr) w in
  head (trace r.2)
    = Some (EvLogSetOutput (LevelFilter ValidLevels (LogLevel w) stdout)) /\
  bridge_started (trace r.2) = true /\
  interceptor_started (trace r.2) = true /\
  handler_invoked (trace r.2) = true /\
  printed stderr (trace r.2) = printed stderr (plugin_warning stderr w) /\
  exists code,
    r.1 = Returned code /\
    EvRun (f (built_meta dir stdout stderr w)) args code ∈ trace r.2.
Proof.
  intros Hl Hc Hp r. subst r. destruct p as [outR outW].
  rewrite (runner_dispatch Run cmd f dir args stdout stderr w outR outW Hp Hc).
  cbn [fst snd trace world].
  unfold handler_invoked, interceptor_started, bridge_started.
  rewrite !existsb_app. unfold printed. rewrite !omap_app.
  fold (printed stderr (prologue dir stdout stderr w)).
  rewrite prologue_printed.
  split_and!.
  - unfold prologue, level_filter. simpl.
    rewrite bool_decide_eq_true_2 by exact Hl. reflexivity.
  - reflexivity.
  - simpl. apply orb_true_r.
  - simpl. apply orb_true_r.
  - simpl. apply app_nil_r.
  - eexists. split; [reflexivity|].
    rewrite !elem_of_app. right. left. right. left.
Qed.


(** C5 — for a name of the table and any arguments, [runner] returns an
    exit code, and [os.Stderr] is then the file it was before the call:
    on the path where [os.Pipe] fails it was never assigned, on the
    other the deferred call puts [oldStderr] back, whatever the handler
    did to the variable. *)
Theorem runner_restores_stderr (cmd dir : string) (args : list string)
        (stdout stderr : Writer) (w : World) :
  cmd ∈ dom commands ->
  let r := exec (runner Run cmd dir args stdout stderr) w in
  (exists code, r.1 = Returned code) /\
  os_Stderr (world r.2) = os_Stderr w.
Proof.
  intros Hin r. subst r.
  apply elem_of_dom in Hin as [f Hc].
  destruct (os_Pipe w) as [[outR outW]|err] eqn:Hp.
  - rewrite (runner_dispatch Run cmd f dir args stdout stderr w outR outW Hp Hc).
    split; [eexists; reflexivity | reflexivity].
  - rewrite (runner_pipe_fails Run cmd dir args stdout stderr w err Hp).
    split; [eexists; reflexivity | reflexivity].
Qed.

(** C6 — with no log level set ([logging.LogLevel] answers the empty
    string), the logger's output and the scanner's writer are
    [ioutil.Discard]: whatever text reaches the pipe, and however far
    the scanner gets with it, no goroutine started by the call writes
    anything, to [stdout] or elsewhere. With a pipe, that scanner is
    started. *)
Theorem runner_silent_by_default (cmd dir : string) (args : list string)
        (stdout stderr : Writer) (w : World) :
  LogLevel w = "" ->
  let r := exec (runner Run cmd dir args stdout stderr) w in
  head (trace r.2) = Some (EvLogSetOutput Discard) /\
  (forall g text n, g ∈ spawned (trace r.2) -> goroutine_writes g text n = []) /\
  (forall outR outW, os_Pipe w = Ok (outR, outW) ->
     GScanner outR Discard ∈ spawned (trace r.2)).
Proof.
  intros Hl r. subst r.
  assert (Hlf : level_filter (LogLevel w) stdout = Discard).
  { unfold level_filter. rewrite Hl. reflexivity. }
  assert (Hsc : forall text n, scanner Discard text n = []).
  { intros text n. unfold scanner. induction (take n (ScanLines text)) as [|l ls IH];
      [reflexivity | exact IH]. }
  destruct (os_Pipe w) as [[outR outW]|err] eqn:Hp;
    [destruct (commands !! cmd) as [f|] eqn:Hc|].
  - rewrite (runner_dispatch Run cmd f dir args stdout stderr w outR outW Hp Hc).
    cbn [fst snd trace world]. unfold spawned. rewrite !omap_app.
    fold (spawned (prologue dir stdout stderr w)).
    rewrite prologue_spawned, Hlf. simpl. split_and!.
    + unfold prologue. simpl. rewrite Hlf. reflexivity.
    + intros g text n Hg. rewrite !elem_of_cons in Hg.
      destruct Hg as [->|[->|Hg]]; [reflexivity | apply Hsc | inversion Hg].
    + intros r0 w0 Heq. inversion Heq; subst. set_solver.
  - rewrite (runner_nil_handler Run cmd dir args stdout stderr w outR outW Hp Hc).
    cbn [fst snd trace world]. unfold spawned. rewrite !omap_app.
    fold (spawned (prologue dir stdout stderr w)).
    rewrite prologue_spawned, Hlf. simpl. split_and!.
    + unfold prologue. simpl. rewrite Hlf. reflexivity.
    + intros g text n Hg. rewrite !elem_of_cons in Hg.
      destruct Hg as [->|[->|Hg]]; [reflexivity | apply Hsc | inversion Hg].
    + intros r0 w0 Heq. inversion Heq; subst. set_solver.
  - rewrite (runner_pipe_fails Run cmd dir args stdout stderr w err Hp).
    cbn [fst snd trace world]. unfold spawned. rewrite !omap_app.
    fold (spawned (prologue dir stdout stderr w)).
    rewrite prologue_spawned. simpl. split_and!.
    + unfold prologue. simpl. rewrite Hlf. reflexivity.
    + intros g text n Hg. rewrite !elem_of_cons in Hg.
      destruct Hg as [->|Hg]; [reflexivity | inversion Hg].
    + intros r0 w0 Heq. discriminate Heq.
Qed.

(** C7 — for a name of the table, the only [Run] of a call is that of
    the command the table's entry builds from the call's
    [command.Meta], on the call's arguments; the code it answers is the
    result of [runner], as it is. With a pipe that [Run] takes place. *)
Theorem runner_returns_handler_code (cmd : string) (f : cmdFunc) (dir : string)
        (args : list string) (stdout stderr : Writer) (w : World) :
  commands !! cmd = Some f ->
  let r := exec (runner Run cmd dir args stdout stderr) w in
  (forall c a code,
      EvRun c a code ∈ trace r.2 ->
      r.1 = Returned code /\ c = f (built_meta dir stdout stderr w) /\ a = args) /\
  (forall outR outW,
      os_Pipe w = Ok (outR, outW) ->
      let res := Run (f (built_meta dir stdout stderr w)) args (world_at_Run stdout outW w) in
      r.1 = Returned res.1 /\
      List.filter is_Run (trace r.2) = [EvRun (f (built_meta dir stdout stderr w)) args res.1]).
Proof.
  intros Hc r. subst r.
  assert (Hpro : forall c a code, EvRun c a code ∈ prologue dir stdout stderr w -> False).
  { intros c a code Hin.
    pose proof (existsb_elem_of is_Run _ _ Hin eq_refl) as Hex.
    fold (handler_invoked (prologue dir stdout stderr w)) in Hex.
    rewrite prologue_no_handler in Hex. discriminate Hex. }
  assert (Hfil : List.filter is_Run (prologue dir stdout stderr w) = []).
  { unfold prologue, plugin_warning. destruct (configDir w); reflexivity. }
  destruct (os_Pipe w) as [[outR outW]|err] eqn:Hp.
  - rewrite (runner_dispatch Run cmd f dir args stdout stderr w outR outW Hp Hc).
    cbn [fst snd trace world]. split.
    + intros c a code Hin. rewrite !elem_of_app in Hin.
      destruct Hin as [Hin|[Hin|Hin]].
      * destruct (Hpro _ _ _ Hin).
      * rewrite !elem_of_cons in Hin.
        destruct Hin as [Hin|[Hin|[Hin|Hin]]]; try discriminate Hin; [|inversion Hin].
        inversion Hin; subst. split_and!; reflexivity.
      * unfold epilogue in Hin. rewrite !elem_of_cons in Hin.
        destruct Hin as [Hin|[Hin|[Hin|Hin]]]; try discriminate Hin. inversion Hin.
    + intros r0 w0 Heq. inversion Heq; subst. cbn zeta.
      split; [reflexivity|].
      rewrite !List.filter_app, Hfil. reflexivity.
  - rewrite (runner_pipe_fails Run cmd dir args stdout stderr w err Hp).
    cbn [fst snd trace world]. split.
    + intros c a code Hin. rewrite !elem_of_app in Hin.
      destruct Hin as [Hin|[Hin|Hin]].
      * destruct (Hpro _ _ _ Hin).
      * rewrite !elem_of_cons in Hin.
        destruct Hin as [Hin|Hin]; [discriminate Hin | inversion Hin].
      * unfold epilogue in Hin. rewrite !elem_of_cons in Hin.
        destruct Hin as [Hin|[Hin|[Hin|Hin]]]; try discriminate Hin. inversion Hin.
    + intros r0 w0 Heq. discriminate Heq.
Qed.
End RunnerClaims.

(** *** The paths on the sample environment *)

Lemma runner_unknown_command_witness :
  commands !! "plan" = None /\
  let r := exec (@runner unix_imports sample_Run "plan" "data" [] (Sink 1) (Sink 2))
             quiet_world in
  handler_invoked (trace r.2) = false /\
  bridge_started (trace r.2) = true /\
  context_built (trace r.2) = true /\
  os_Stderr (world r.2) = 2%nat.
Proof.
  split; [reflexivity|]. cbv zeta.
  destruct (@runner_unknown_command unix_imports sample_Run "plan" "data" []
              (Sink 1) (Sink 2) quiet_world eq_refl) as (H1 & H2 & H3 & _ & H5 & _).
  split_and!; [exact H1 | exact H2 | exact H3 | exact H5].
Defined.

(** C1 as stated fails: "plan" is not in the table, there is a pipe, and
    the call ends in a panic on the nil function, after [signal.Notify] and
    after the [command.Meta] was built. *)
Lemma runner_unknown_command_counterexample :
  let r := exec (@runner unix_imports sample_Run "plan" "data" [] (Sink 1) (Sink 2))
             quiet_world in
  commands !! "plan" = None /\
  ~ ((exists code, r.1 = Returned code /\ code ≠ 0) /\
     context_built (trace r.2) = false /\
     bridge_started (trace r.2) = false /\
     handler_invoked (trace r.2) = false).
Proof.
  cbv zeta. split; [reflexivity|].
  intros [[code [Hret _]] _]. vm_compute in Hret. discriminate Hret.
Qed.

Lemma runner_pipe_failure_witness :
  let r := exec (@runner unix_imports sample_Run "apply" "data" [] (Sink 1) (Sink 2))
             no_pipe_world in
  r.1 = Returned 1 /\
  handler_invoked (trace r.2) = false /\
  interceptor_started (trace r.2) = false /\
  List.filter is_bridge_call (trace r.2) = [EvNotify 1%nat [2; 15]; EvReset [2; 15]] /\
  last (printed (Sink 2) (trace r.2)) = Some "error creating Pipe: too many open files" /\
  os_Stderr (world r.2) = 2%nat.
Proof.
  exact (@runner_pipe_failure unix_imports sample_Run "apply" "data" []
           (Sink 1) (Sink 2) no_pipe_world "too many open files" eq_refl).
Defined.

(** C3 as stated fails: on the path where [os.Pipe] fails the shutdown
    bridge has been started. *)
Lemma runner_pipe_failure_counterexample :
  let r := exec (@runner unix_imports sample_Run "apply" "data" [] (Sink 1) (Sink 2))
             no_pipe_world in
  os_Pipe no_pipe_world = Err "too many open files" /\
  ~ ((exists code, r.1 = Returned code /\ code ≠ 0) /\
     handler_invoked (trace r.2) = false /\
     bridge_started (trace r.2) = false).
Proof.
  cbv zeta. split; [reflexivity|].
  intros (_ & _ & Hb). vm_compute in Hb. discriminate Hb.
Qed.



Lemma runner_restores_stderr_witness :
  let r := exec (@runner unix_imports sample_Run "destroy" "data" [] (Sink 1) (Sink 2))
             quiet_world in
  (exists code, r.1 = Returned code) /\ os_Stderr (world r.2) = 2%nat.
Proof.
  apply (@runner_restores_stderr unix_imports sample_Run "destroy" "data" []
           (Sink 1) (Sink 2) quiet_world).
  apply elem_of_dom. eexists. reflexivity.
Defined.

Lemma runner_silent_by_default_witness :
  let r := exec (@runner unix_imports sample_Run "init" "data" [] (Sink 1) (Sink 2))
             quiet_world in
  head (trace r.2) = Some (EvLogSetOutput Discard) /\
  GScanner 7%nat Discard ∈ spawned (trace r.2) /\
  @goroutine_writes unix_imports (GScanner 7%nat Discard)
    ("warning: test" +:+ newline) 1 = [].
Proof.
  cbv zeta.
  destruct (@runner_silent_by_default unix_imports sample_Run "init" "data" []
              (Sink 1) (Sink 2) quiet_world eq_refl) as (H1 & H2 & H3).
  split_and!; [exact H1 | exact (H3 7%nat 8%nat eq_refl) |].
  exact (H2 _ _ _ (H3 7%nat 8%nat eq_refl)).
Defined.

Lemma runner_returns_handler_code_witness :
  (exec (@runner unix_imports sample_Run "destroy" "data" [] (Sink 1) (Sink 2))
     quiet_world).1 = Returned 3.
Proof.
  exact (proj1 (proj2 (@runner_returns_handler_code unix_imports sample_Run "destroy" _
                         "data" [] (Sink 1) (Sink 2) quiet_world eq_refl)
                  7%nat 8%nat eq_refl)).
Defined.

(** ** The shutdown channel *)

Section BridgeFacts.
Context {I : Imports}.

Lemma handled_signals_eq : handled_signals = ignoreSignals ++ forwardSignals.
Proof. reflexivity. Qed.

Lemma relays_handled (s : Signal) :
  s ∈ ignoreSignals \/ s ∈ forwardSignals -> relays handled_signals s = true.
Proof.
  intros Hs. rewrite handled_signals_eq.
  assert (Hin : s ∈ ignoreSignals ++ forwardSignals) by (apply elem_of_app; exact Hs).
  unfold relays. destruct (ignoreSignals ++ forwardSignals) as [|x l]; [reflexivity|].
  apply bool_decide_eq_true_2. exact Hin.
Qed.

Lemma relays_other (s : Signal) :
  handled_signals ≠ [] -> s ∉ ignoreSignals -> s ∉ forwardSignals ->
  relays handled_signals s = false.
Proof.
  rewrite handled_signals_eq. intros Hne Hi Hf.
  assert (Hin : s ∉ ignoreSignals ++ forwardSignals).
  { rewrite elem_of_app. intros [H|H]; [exact (Hi H) | exact (Hf H)]. }
  unfold relays. destruct (ignoreSignals ++ forwardSignals) as [|x l]; [congruence|].
  apply bool_decide_eq_false_2. exact Hin.
Qed.

(** The reader's draining empties the buffer, in order. *)
Lemma drain_buffer (buf : list Signal) :
  forall (n : bool) (rec : list Signal) (fuel : nat),
    (2 * length buf <= fuel)%nat ->
    drain fuel (mkBridge n buf None rec) = mkBridge n [] None (rec ++ buf).
Proof.
  induction buf as [|s buf IH]; intros n rec fuel Hfuel.
  - rewrite app_nil_r. destruct fuel; reflexivity.
  - destruct fuel as [|[|fuel]]; simpl in Hfuel; try lia.
    simpl. rewrite IH by lia. rewrite <- app_assoc. reflexivity.
Qed.

Lemma settle_eq (b : Bridge) :
  settle b = mkBridge (notifying b) [] None (received b ++ in_flight b).
Proof.
  destruct b as [n buf [s|] rec]; unfold settle, in_flight; simpl signalCh.
  - replace (2 * length buf + 1)%nat with (S (2 * length buf)) by lia.
    simpl. rewrite drain_buffer by lia. rewrite <- app_assoc. reflexivity.
  - rewrite drain_buffer by lia. reflexivity.
Qed.

Lemma run_drained_cons (s : Signal) (sigs : list Signal) (b : Bridge) :
  run_drained (s :: sigs) b = run_drained sigs (settle (deliver s b)).
Proof. reflexivity. Qed.

Lemma settle_deliver (s : Signal) (rec : list Signal) :
  settle (deliver s (mkBridge true [] None rec))
  = mkBridge true [] None (rec ++ List.filter (relays handled_signals) [s]).
Proof.
  rewrite settle_eq. unfold deliver, step, in_flight. simpl.
  destruct (relays handled_signals s); reflexivity.
Qed.

Lemma run_drained_received (sigs : list Signal) :
  forall rec,
    run_drained sigs (mkBridge true [] None rec)
    = mkBridge true [] None (rec ++ List.filter (relays handled_signals) sigs).
Proof.
  induction sigs as [|s sigs IH]; intros rec.
  - simpl. rewrite app_nil_r. reflexivity.
  - rewrite run_drained_cons, settle_deliver, IH, <- app_assoc.
    change (s :: sigs) with ([s] ++ sigs). rewrite List.filter_app. reflexivity.
Qed.

(** C2, as the code has it — both lists are passed to [signal.Notify]
    for the one channel, so a signal of the ignore list causes a shutdown
    event as one of the forward list does. With the reader draining
    between signals, the events are, one for one and in order of
    receipt, the signals that [Notify] relays: those of either list, and
    no other, except that every signal is relayed when both lists are
    empty. *)
Theorem shutdown_events_per_signal (sigs : list Signal) :
  shutdown_events sigs = List.filter (relays handled_signals) sigs /\
  (forall s, s ∈ ignoreSignals \/ s ∈ forwardSignals ->
             relays handled_signals s = true) /\
  (forall s, handled_signals ≠ [] -> s ∉ ignoreSignals -> s ∉ forwardSignals ->
             relays handled_signals s = false).
Proof.
  split; [|split; [exact relays_handled | exact relays_other]].
  unfold shutdown_events, started. rewrite run_drained_received. reflexivity.
Qed.

(** Under any schedule: what was received and what is in flight are,
    in order, among the relayed signals delivered so far; nothing is
    made up, repeated or reordered, and the buffer keeps to its
    capacity. *)
Lemma run_invariant (acts : list Action) :
  forall (b b' : Bridge) (seen : list Signal),
    (received b ++ in_flight b) `sublist_of` List.filter (relays handled_signals) seen ->
    (length (signalCh b) <= signalCh_cap)%nat ->
    run acts b = Some b' ->
    (received b' ++ in_flight b')
      `sublist_of` List.filter (relays handled_signals) (seen ++ delivered acts)
    /\ (length (signalCh b') <= signalCh_cap)%nat.
Proof.
  induction acts as [|a acts IH]; intros b b' seen Hsub Hcap Hrun.
  - simpl in Hrun. inversion Hrun; subst. unfold delivered. simpl.
    rewrite app_nil_r. split; assumption.
  - simpl in Hrun. destruct (step a b) as [b1|] eqn:Hstep; [|discriminate].
    destruct a as [s| | |]; simpl in Hstep.
    + (* Deliver *)
      change (delivered (Deliver s :: acts)) with (s :: delivered acts).
      replace (seen ++ s :: delivered acts) with ((seen ++ [s]) ++ delivered acts)
        by (rewrite <- app_assoc; reflexivity).
      refine (IH b1 b' (seen ++ [s]) _ _ Hrun).
      * rewrite List.filter_app. simpl.
        destruct (notifying b); simpl in Hstep;
          [destruct (relays handled_signals s) eqn:Hr; simpl in Hstep;
           [case_bool_decide; simpl in Hstep|]|];
          inversion Hstep; subst; clear Hstep;
          try (apply sublist_inserts_r; exact Hsub).
        unfold in_flight in *. simpl.
        rewrite !app_assoc. apply sublist_app; [|reflexivity].
        rewrite <- !app_assoc. exact Hsub.
      * destruct (notifying b && relays handled_signals s
                  && bool_decide (length (signalCh b) < signalCh_cap)%nat) eqn:Hc;
          inversion Hstep; subst; clear Hstep; [|exact Hcap].
        simpl. rewrite length_app. simpl.
        apply andb_true_iff in Hc as [_ Hc]. apply bool_decide_eq_true_1 in Hc. lia.
    + (* Forward *)
      change (delivered (Forward :: acts)) with (delivered acts).
      destruct (sending b) as [s0|] eqn:Hs; [discriminate|].
      destruct (signalCh b) as [|s rest] eqn:Hb; [discriminate|].
      inversion Hstep; subst; clear Hstep.
      refine (IH _ b' seen _ _ Hrun).
      * unfold in_flight in *. simpl. rewrite Hs, Hb in Hsub. exact Hsub.
      * simpl. simpl in Hcap. lia.
    + (* Consume *)
      change (delivered (Consume :: acts)) with (delivered acts).
      destruct (sending b) as [s0|] eqn:Hs; [|discriminate].
      inversion Hstep; subst; clear Hstep.
      refine (IH _ b' seen _ _ Hrun).
      * unfold in_flight in *. simpl. rewrite Hs in Hsub. simpl in Hsub.
        rewrite <- app_assoc. exact Hsub.
      * exact Hcap.
    + (* Cancel *)
      change (delivered (Cancel :: acts)) with (delivered acts).
      inversion Hstep; subst; clear Hstep.
      exact (IH (mkBridge false (signalCh b) (sending b) (received b)) b' seen Hsub Hcap Hrun).
Qed.
End BridgeFacts.

Lemma shutdown_events_per_signal_witness :
  @shutdown_events unix_imports [2; 15; 9; 15] = [2; 15; 15] /\
  relays (@handled_signals unix_imports) 2 = true /\
  relays (@handled_signals unix_imports) 9 = false.
Proof.
  destruct (@shutdown_events_per_signal unix_imports [2; 15; 9; 15]) as (H1 & H2 & H3).
  split_and!.
  - exact H1.
  - apply H2. left. apply (bool_decide_unpack _). vm_compute. exact I.
  - apply H3.
    + discriminate.
    + apply (bool_decide_unpack _). vm_compute. exact I.
    + apply (bool_decide_unpack _). vm_compute. exact I.
Defined.

(** C2 as stated fails: signal 2 is of the ignore list and not of the
    forward list, and its receipt publishes a shutdown event. *)
Lemma shutdown_events_per_signal_counterexample :
  ~ (forall sigs : list Signal,
        @shutdown_events unix_imports sigs
        = List.filter (fun s => bool_decide (s ∈ @forwardSignals unix_imports)) sigs).
Proof.
  intros H. specialize (H [2]). vm_compute in H. discriminate H.
Qed.

(** ** Further properties *)

Section More.
Context {I : Imports}.
Variable Run : Command -> list string -> World -> Z * World.

(** Under any schedule of deliveries, forwarding, receiving and
    cancelling, the shutdown events received are, in order, among the
    relayed signals delivered: at most one event a signal, none
    repeated, none out of order. *)
Theorem shutdown_events_any_schedule (acts : list Action) (b : Bridge) :
  run acts started = Some b ->
  received b `sublist_of` List.filter (relays handled_signals) (delivered acts) /\
  (length (signalCh b) <= signalCh_cap)%nat.
Proof.
  intros Hrun.
  destruct (run_invariant acts started b [] (sublist_nil_l _)
              ltac:(unfold signalCh_cap; simpl; lia) Hrun) as [Hsub Hcap].
  split; [|exact Hcap].
  etransitivity; [|exact Hsub]. apply sublist_inserts_r. reflexivity.
Qed.

(** Once [signal.Reset] has been called, a delivery changes nothing. *)
Lemma deliver_after_cancel (s : Signal) (b : Bridge) :
  notifying b = false -> step (Deliver s) b = Some b.
Proof. intros Hn. unfold step. rewrite Hn. reflexivity. Qed.

(** On every path of [runner], for any name: [signal.Notify] is called
    once, and [signal.Reset], with the same signals, once after it. *)
Theorem runner_cancels_bridge (cmd dir : string) (args : list string)
        (stdout stderr : Writer) (w : World) :
  List.filter is_bridge_call
    (trace (exec (runner Run cmd dir args stdout stderr) w).2)
  = [EvNotify (S (chans w)) handled_signals; EvReset handled_signals].
Proof.
  destruct (os_Pipe w) as [[outR outW]|err] eqn:Hp;
    [destruct (commands !! cmd) as [f|] eqn:Hc|].
  - rewrite (runner_dispatch Run cmd f dir args stdout stderr w outR outW Hp Hc).
    cbn [snd trace]. rewrite !List.filter_app, prologue_bridge_calls. reflexivity.
  - rewrite (runner_nil_handler Run cmd dir args stdout stderr w outR outW Hp Hc).
    cbn [snd trace]. rewrite !List.filter_app, prologue_bridge_calls. reflexivity.
  - rewrite (runner_pipe_fails Run cmd dir args stdout stderr w err Hp).
    cbn [snd trace]. rewrite !List.filter_app, prologue_bridge_calls. reflexivity.
Qed.
End More.

Lemma shutdown_events_any_schedule_witness :
  received (mkBridge true [15; 2; 15] (Some 2) [2])
    `sublist_of` List.filter (relays (@handled_signals unix_imports))
                   (@delivered
                      [Deliver 2; Deliver 2; Deliver 15; Deliver 2; Deliver 2;
                       Forward; Deliver 15; Consume; Forward]) /\
  Nat.le (length (signalCh (mkBridge true [15; 2; 15] (Some 2) [2]))) signalCh_cap.
Proof.
  apply (@shutdown_events_any_schedule unix_imports
           [Deliver 2; Deliver 2; Deliver 15; Deliver 2; Deliver 2;
            Forward; Deliver 15; Consume; Forward]).
  reflexivity.
Defined.

(** ** More on the shutdown channel *)

Section BridgeMore.
Context {I : Imports}.

Lemma burst_cons (s : Signal) (sigs : list Signal) (b : Bridge) :
  burst (s :: sigs) b = burst sigs (deliver_taking s b).
Proof. reflexivity. Qed.

(** The goroutine waits in its send: arrivals go to the buffer while it
    has room. *)
Lemma burst_while_sending (sigs : list Signal) :
  forall (buf : list Signal) (s0 : Signal) (rec : list Signal),
    (length buf <= signalCh_cap)%nat ->
    burst sigs (mkBridge true buf (Some s0) rec)
    = mkBridge true
        (take signalCh_cap (buf ++ List.filter (relays handled_signals) sigs))
        (Some s0) rec.
Proof.
  induction sigs as [|s sigs IH]; intros buf s0 rec Hcap.
  - simpl. rewrite app_nil_r, take_ge by exact Hcap. reflexivity.
  - rewrite burst_cons. unfold deliver_taking, deliver, step. simpl.
    destruct (relays handled_signals s) eqn:Hr; simpl.
    + case_bool_decide as Hlt; simpl.
      * rewrite IH by (rewrite length_app; simpl; unfold signalCh_cap in *; lia).
        rewrite <- app_assoc. reflexivity.
      * rewrite IH by exact Hcap.
        unfold signalCh_cap in *. rewrite !take_app_le by lia. reflexivity.
    + apply IH. exact Hcap.
Qed.

(** The goroutine waits in its receive, on an empty buffer: it takes the
    first relayed signal, the buffer the four after it. *)
Lemma burst_while_receiving (sigs : list Signal) :
  forall rec : list Signal,
    burst sigs (mkBridge true [] None rec)
    = match List.filter (relays handled_signals) sigs with
      | [] => mkBridge true [] None rec
      | s1 :: rest => mkBridge true (take signalCh_cap rest) (Some s1) rec
      end.
Proof.
  induction sigs as [|s sigs IH]; intros rec.
  - reflexivity.
  - rewrite burst_cons. unfold deliver_taking, deliver, step. simpl.
    destruct (relays handled_signals s) eqn:Hr; simpl.
    + rewrite burst_while_sending by (unfold signalCh_cap; simpl; lia). reflexivity.
    + apply IH.
Qed.

(** A burst of signals reaching the started bridge while nothing is
    received from [resultCh]: the goroutine, waiting in [<-signalCh],
    takes the first relayed signal, the buffer keeps the four after it,
    and the rest are dropped without blocking. Once the reader drains,
    the first five relayed signals are published, in order; a burst of
    at most five relayed signals is published whole. *)
Theorem burst_keeps_first_five (sigs : list Signal) :
  in_flight (burst sigs started)
    = take (S signalCh_cap) (List.filter (relays handled_signals) sigs) /\
  received (settle (burst sigs started))
    = take (S signalCh_cap) (List.filter (relays handled_signals) sigs) /\
  ((length (List.filter (relays handled_signals) sigs) <= S signalCh_cap)%nat ->
   received (settle (burst sigs started))
     = List.filter (relays handled_signals) sigs).
Proof.
  assert (Hf : in_flight (burst sigs started)
               = take (S signalCh_cap) (List.filter (relays handled_signals) sigs)
               /\ received (burst sigs started) = []).
  { unfold started. rewrite burst_while_receiving.
    destruct (List.filter (relays handled_signals) sigs) as [|s1 rest];
      split; reflexivity. }
  destruct Hf as [Hf Hr].
  rewrite settle_eq. simpl. rewrite Hr, Hf. simpl.
  split_and!; try reflexivity.
  intros Hle. apply take_ge. exact Hle.
Qed.

(** With both signal lists empty, [signal.Notify] is called with no
    signal and so relays them all: every signal received becomes a
    shutdown event. *)
Theorem shutdown_events_no_lists (sigs : list Signal) :
  ignoreSignals = [] -> forwardSignals = [] ->
  shutdown_events sigs = sigs.
Proof.
  intros Hi Hf. unfold shutdown_events, started.
  rewrite run_drained_received. simpl.
  rewrite handled_signals_eq, Hi, Hf. simpl.
  induction sigs as [|s sigs IH]; [reflexivity|]. simpl. rewrite IH. reflexivity.
Qed.

Lemma run_after_cancel (acts : list Action) :
  forall b b',
    notifying b = false ->
    run acts b = Some b' ->
    received b' ++ in_flight b' = received b ++ in_flight b /\ notifying b' = false.
Proof.
  induction acts as [|a acts IH]; intros [n buf snd rec] b' Hn Hrun;
    simpl in Hn; subst n.
  - simpl in Hrun. inversion Hrun; subst. split; reflexivity.
  - simpl in Hrun. destruct a as [s| | |].
    + rewrite deliver_after_cancel in Hrun by reflexivity.
      apply IH in Hrun; [exact Hrun | reflexivity].
    + simpl in Hrun. destruct snd as [s0|]; [discriminate|].
      destruct buf as [|s rest]; [discriminate|].
      apply IH in Hrun as [Heq Hn']; [|reflexivity].
      split; [|exact Hn']. rewrite Heq. reflexivity.
    + simpl in Hrun. destruct snd as [s0|]; [|discriminate].
      apply IH in Hrun as [Heq Hn']; [|reflexivity].
      split; [|exact Hn']. rewrite Heq. unfold in_flight. simpl.
      rewrite <- app_assoc. reflexivity.
    + simpl in Hrun. apply IH in Hrun; [exact Hrun | reflexivity].
Qed.

(** After [signal.Reset] no signal enters any more, whatever is
    delivered and however the schedule goes on: the events received
    together with what is in flight stay what they were when the bridge
    was cancelled. The goroutine is not stopped, so what was in flight
    can still be published. *)
Theorem cancel_stops_intake (acts : list Action) (b b1 b' : Bridge) :
  step Cancel b = Some b1 ->
  run acts b1 = Some b' ->
  received b' ++ in_flight b' = received b ++ in_flight b /\
  notifying b' = false.
Proof.
  intros Hc Hrun. simpl in Hc. inversion Hc; subst b1; clear Hc.
  apply run_after_cancel in Hrun; [exact Hrun | reflexivity].
Qed.
End BridgeMore.

Lemma burst_keeps_first_five_witness :
  received (@settle unix_imports (@burst unix_imports [2; 1; 15; 2] started))
  = [2; 15; 2] /\
  received (@settle unix_imports (@burst unix_imports [2; 15; 2; 15; 2; 15; 2] started))
  = [2; 15; 2; 15; 2].
Proof.
  split.
  - apply (proj2 (proj2 (@burst_keeps_first_five unix_imports [2; 1; 15; 2]))).
    unfold signalCh_cap. simpl. lia.
  - exact (proj1 (proj2 (@burst_keeps_first_five unix_imports [2; 15; 2; 15; 2; 15; 2]))).
Defined.

Lemma shutdown_events_no_lists_witness :
  @shutdown_events no_signal_imports [9; 2; 15] = [9; 2; 15].
Proof.
  apply (@shutdown_events_no_lists no_signal_imports [9; 2; 15]); reflexivity.
Defined.

Lemma cancel_stops_intake_witness :
  received (mkBridge false [] None [2; 15]) ++ in_flight (mkBridge false [] None [2; 15])
  = received (mkBridge true [15] (Some 2) []) ++ in_flight (mkBridge true [15] (Some 2) []) /\
  notifying (mkBridge false [] None [2; 15]) = false.
Proof.
  apply (@cancel_stops_intake unix_imports
           [Deliver 15; Consume; Deliver 2; Forward; Consume]
           (mkBridge true [15] (Some 2) []) (mkBridge false [15] (Some 2) [])).
  - reflexivity.
  - reflexivity.
Defined.

(** ** More on [runner] *)

Section PartsMore.
Context {I : Imports}.
Variables (dir : string) (stdout stderr : Writer) (w : World).

Lemma prologue_no_close : List.filter is_Close (prologue dir stdout stderr w) = [].
Proof. unfold prologue, plugin_warning. destruct (configDir w); reflexivity. Qed.

Lemma prologue_prints : prints_only_to stderr (prologue dir stdout stderr w).
Proof.
  unfold prints_only_to, prologue, plugin_warning.
  destruct (configDir w); repeat constructor.
Qed.

Lemma epilogue_prints : prints_only_to stderr (epilogue w).
Proof. unfold prints_only_to, epilogue. repeat constructor. Qed.

Lemma prologue_wiring :
  EvMakeChan (chans w) 0 ∈ prologue dir stdout stderr w /\
  EvMakeChan (S (chans w)) 4 ∈ prologue dir stdout stderr w /\
  EvNotify (S (chans w)) handled_signals ∈ prologue dir stdout stderr w /\
  EvGo (GForward (S (chans w)) (chans w)) ∈ prologue dir stdout stderr w /\
  EvMeta (built_meta dir stdout stderr w) ∈ prologue dir stdout stderr w.
Proof.
  unfold prologue. split_and!; rewrite ?elem_of_app, ?elem_of_cons; auto 10.
Qed.
End PartsMore.

Section RunnerMore.
Context {I : Imports}.
Variable Run : Command -> list string -> World -> Z * World.

(** Every path of [runner], the panic included, ends with the three
    deferred calls in the reverse of the order they were deferred in:
    [signal.Reset], [plugin.CleanupClients], [log.SetOutput(os.Stderr)].
    The logger is thus left writing to the file [os.Stderr] held when
    the call began, whatever its output was before the call. *)
Theorem runner_deferred_calls (cmd dir : string) (args : list string)
        (stdout stderr : Writer) (w : World) :
  let r := exec (runner Run cmd dir args stdout stderr) w in
  (exists pre,
      trace r.2 = pre ++ [EvReset handled_signals; EvCleanupClients;
                          EvLogSetOutput (FileWriter (os_Stderr w))] /\
      List.filter is_Cleanup pre = []) /\
  log_output (world r.2) = FileWriter (os_Stderr w).
Proof.
  intros r. subst r.
  assert (Hpro : List.filter is_Cleanup (prologue dir stdout stderr w) = []).
  { unfold prologue, plugin_warning. destruct (configDir w); reflexivity. }
  destruct (os_Pipe w) as [[outR outW]|err] eqn:Hp;
    [destruct (commands !! cmd) as [f|] eqn:Hc|].
  - rewrite (runner_dispatch Run cmd f dir args stdout stderr w outR outW Hp Hc).
    cbn [fst snd trace world]. split; [|reflexivity].
    eexists. rewrite !app_assoc. split; [reflexivity|].
    rewrite List.filter_app, Hpro. reflexivity.
  - rewrite (runner_nil_handler Run cmd dir args stdout stderr w outR outW Hp Hc).
    cbn [fst snd trace world]. split; [|reflexivity].
    eexists. rewrite !app_assoc. split; [reflexivity|].
    rewrite List.filter_app, Hpro. reflexivity.
  - rewrite (runner_pipe_fails Run cmd dir args stdout stderr w err Hp).
    cbn [fst snd trace world]. split; [|reflexivity].
    eexists. rewrite !app_assoc. split; [reflexivity|].
    rewrite List.filter_app, Hpro. reflexivity.
Qed.

(** With a pipe, for any name: the write end is closed, once, by the
    deferred closure, before [signal.Reset]; the read end is never
    closed by [runner]. *)
Theorem runner_closes_write_end (cmd dir : string) (args : list string)
        (stdout stderr : Writer) (w : World) (outR outW : File) :
  os_Pipe w = Ok (outR, outW) ->
  let r := exec (runner Run cmd dir args stdout stderr) w in
  List.filter is_Close (trace r.2) = [EvClose outW] /\
  exists pre,
    trace r.2 = pre ++ [EvClose outW; EvReset handled_signals; EvCleanupClients;
                        EvLogSetOutput (FileWriter (os_Stderr w))].
Proof.
  intros Hp r. subst r.
  destruct (commands !! cmd) as [f|] eqn:Hc.
  - rewrite (runner_dispatch Run cmd f dir args stdout stderr w outR outW Hp Hc).
    cbn [fst snd trace world]. split.
    + rewrite !List.filter_app, prologue_no_close. reflexivity.
    + exists (prologue dir stdout stderr w
              ++ [EvGo (GScanner outR (level_filter (LogLevel w) stdout));
                  EvRun (f (built_meta dir stdout stderr w)) args
                    (Run (f (built_meta dir stdout stderr w)) args
                       (world_at_Run stdout outW w)).1]).
      rewrite <- !app_assoc. reflexivity.
  - rewrite (runner_nil_handler Run cmd dir args stdout stderr w outR outW Hp Hc).
    cbn [fst snd trace world]. split.
    + rewrite !List.filter_app, prologue_no_close. reflexivity.
    + exists (prologue dir stdout stderr w
              ++ [EvGo (GScanner outR (level_filter (LogLevel w) stdout))]).
      rewrite <- !app_assoc. reflexivity.
Qed.

(** Without a pipe nothing is closed. *)
Lemma runner_closes_nothing (cmd dir : string) (args : list string)
      (stdout stderr : Writer) (w : World) (err : string) :
  os_Pipe w = Err err ->
  List.filter is_Close (trace (exec (runner Run cmd dir args stdout stderr) w).2) = [].
Proof.
  intros Hp.
  rewrite (runner_pipe_fails Run cmd dir args stdout stderr w err Hp).
  cbn [snd trace]. rewrite !List.filter_app, prologue_no_close. reflexivity.
Qed.

(** On every path the channels are wired the same way: the first
    channel made is unbuffered and is the one in [Meta.ShutdownCh] and
    the one the forwarding goroutine sends on; the second has room for
    four signals and is the one given to [signal.Notify] and read by the
    goroutine. The two are different channels. *)
Theorem runner_channel_wiring (cmd dir : string) (args : list string)
        (stdout stderr : Writer) (w : World) :
  let tr := trace (exec (runner Run cmd dir args stdout stderr) w).2 in
  exists resultCh signalCh meta,
    resultCh ≠ signalCh /\
    EvMakeChan resultCh 0 ∈ tr /\
    EvMakeChan signalCh 4 ∈ tr /\
    EvNotify signalCh handled_signals ∈ tr /\
    EvGo (GForward signalCh resultCh) ∈ tr /\
    EvMeta meta ∈ tr /\
    ShutdownCh meta = resultCh /\
    List.filter is_Meta tr = [EvMeta meta].
Proof.
  intros tr. subst tr.
  exists (chans w), (S (chans w)), (built_meta dir stdout stderr w).
  destruct (prologue_wiring dir stdout stderr w) as (H1 & H2 & H3 & H4 & H5).
  assert (Hm : List.filter is_Meta (prologue dir stdout stderr w)
               = [EvMeta (built_meta dir stdout stderr w)]).
  { unfold prologue, plugin_warning. destruct (configDir w); reflexivity. }
  destruct (os_Pipe w) as [[outR outW]|err] eqn:Hp;
    [destruct (commands !! cmd) as [f|] eqn:Hc|].
  - rewrite (runner_dispatch Run cmd f dir args stdout stderr w outR outW Hp Hc).
    cbn [snd trace]. rewrite !List.filter_app, Hm.
    split_and!; try (apply elem_of_app; left; assumption); try reflexivity. lia.
  - rewrite (runner_nil_handler Run cmd dir args stdout stderr w outR outW Hp Hc).
    cbn [snd trace]. rewrite !List.filter_app, Hm.
    split_and!; try (apply elem_of_app; left; assumption); try reflexivity. lia.
  - rewrite (runner_pipe_fails Run cmd dir args stdout stderr w err Hp).
    cbn [snd trace]. rewrite !List.filter_app, Hm.
    split_and!; try (apply elem_of_app; left; assumption); try reflexivity. lia.
Qed.

(** For a name that is not in the table and with a pipe, the call does
    not return: it panics on the nil function. The deferred calls have
    run all the same: [os.Stderr] and the logger are as after any other
    call, and no handler was called. *)
Theorem runner_unknown_command_panics (cmd dir : string) (args : list string)
        (stdout stderr : Writer) (w : World) (p : File * File) :
  commands !! cmd = None ->
  os_Pipe w = Ok p ->
  let r := exec (runner Run cmd dir args stdout stderr) w in
  (exists why, r.1 = Panicked why) /\
  os_Stderr (world r.2) = os_Stderr w /\
  log_output (world r.2) = FileWriter (os_Stderr w) /\
  interceptor_started (trace r.2) = true /\
  handler_invoked (trace r.2) = false.
Proof.
  intros Hc Hp r. subst r. destruct p as [outR outW].
  rewrite (runner_nil_handler Run cmd dir args stdout stderr w outR outW Hp Hc).
  cbn [fst snd trace world].
  unfold interceptor_started, handler_invoked. rewrite !existsb_app.
  fold (handler_invoked (prologue dir stdout stderr w)).
  rewrite prologue_no_handler.
  split_and!; try reflexivity.
  - eexists. reflexivity.
  - simpl. apply orb_true_r.
Qed.
End RunnerMore.

(** The handler is called with [os.Stderr] set to the write end of the
    pipe and the logger writing to [lf], on a [command.Meta] without
    colour, with the caller's two writers as its UI and the caller's
    directory as data directory. State and [Meta] are the same for
    every handler. *)
Theorem runner_handler_state {I : Imports} (cmd : string) (f : cmdFunc)
        (dir : string) (args : list string) (stdout stderr : Writer)
        (w : World) (outR outW : File) :
  commands !! cmd = Some f ->
  os_Pipe w = Ok (outR, outW) ->
  exists meta w1,
    os_Stderr w1 = outW /\
    log_output w1 = level_filter (LogLevel w) stdout /\
    Color meta = false /\
    Ui meta = mkBasicUi stdout stderr /\
    OverrideDataDir meta = dir /\
    forall Run,
      let r := exec (runner Run cmd dir args stdout stderr) w in
      r.1 = Returned (Run (f meta) args w1).1 /\
      List.filter is_Run (trace r.2) = [EvRun (f meta) args (Run (f meta) args w1).1] /\
      world r.2 = world_restored w (Run (f meta) args w1).2.
Proof.
  intros Hc Hp.
  exists (built_meta dir stdout stderr w), (world_at_Run stdout outW w).
  split_and!; try reflexivity.
  intros Run r. subst r.
  rewrite (runner_dispatch Run cmd f dir args stdout stderr w outR outW Hp Hc).
  cbn [fst snd trace world]. split_and!; try reflexivity.
  rewrite !List.filter_app.
  assert (Hfil : List.filter is_Run (prologue dir stdout stderr w) = []).
  { unfold prologue, plugin_warning. destruct (configDir w); reflexivity. }
  rewrite Hfil. reflexivity.
Qed.

Lemma runner_closes_write_end_witness :
  let r := exec (@runner unix_imports sample_Run "plan" "data" [] (Sink 1) (Sink 2))
             quiet_world in
  List.filter is_Close (trace r.2) = [EvClose 8%nat] /\
  exists pre,
    trace r.2 = pre ++ [EvClose 8%nat; EvReset [2; 15]; EvCleanupClients;
                        EvLogSetOutput (FileWriter 2%nat)].
Proof.
  exact (@runner_closes_write_end unix_imports sample_Run "plan" "data" []
           (Sink 1) (Sink 2) quiet_world 7%nat 8%nat eq_refl).
Defined.

Lemma runner_unknown_command_panics_witness :
  let r := exec (@runner unix_imports sample_Run "plan" "data" [] (Sink 1) (Sink 2))
             quiet_world in
  (exists why, r.1 = Panicked why) /\
  os_Stderr (world r.2) = 2%nat /\
  log_output (world r.2) = FileWriter 2%nat /\
  interceptor_started (trace r.2) = true /\
  handler_invoked (trace r.2) = false.
Proof.
  exact (@runner_unknown_command_panics unix_imports sample_Run "plan" "data" []
           (Sink 1) (Sink 2) quiet_world (7%nat, 8%nat) eq_refl eq_refl).
Defined.

Lemma runner_handler_state_witness :
  exists meta w1,
    os_Stderr w1 = 8%nat /\
    log_output w1 = Discard /\
    Color meta = false /\
    Ui meta = mkBasicUi (Sink 1) (Sink 2) /\
    OverrideDataDir meta = "data" /\
    forall Run,
      let r := exec (@runner unix_imports Run "init" "data" ["-input=false"] (Sink 1) (Sink 2))
                 quiet_world in
      r.1 = Returned (Run (InitCommand meta) ["-input=false"] w1).1 /\
      List.filter is_Run (trace r.2)
        = [EvRun (InitCommand meta) ["-input=false"]
             (Run (InitCommand meta) ["-input=false"] w1).1] /\
      world r.2 = world_restored quiet_world (Run (InitCommand meta) ["-input=false"] w1).2.
Proof.
  exact (@runner_handler_state unix_imports "init" (fun meta => InitCommand meta) "data"
           ["-input=false"] (Sink 1) (Sink 2) quiet_world 7%nat 8%nat eq_refl eq_refl).
Defined.

(** ** More on the scanner and the level filter *)

Section ScannerMore.
Context {I : Imports}.
Variable Run : Command -> list string -> World -> Z * World.

Lemma flat_map_filtered {A B : Type} (p : A -> bool) (g : A -> list B) (l : list A) :
  flat_map (fun x => if p x then g x else []) l = flat_map g (List.filter p l).
Proof.
  induction l as [|x l IH]; [reflexivity|]. simpl.
  destruct (p x); simpl; rewrite IH; reflexivity.
Qed.

Lemma scanner_level_filter (levels : list string) (min : string) (out : Writer)
      (text : string) (n : nat) :
  scanner (LevelFilter levels min out) text n
  = flat_map (fun line => Write out (line +:+ newline))
      (List.filter (fun line => LevelFilter_Check levels min (line +:+ newline))
         (take n (ScanLines text))).
Proof.
  unfold scanner. simpl.
  apply (flat_map_filtered
           (fun line => LevelFilter_Check levels min (line +:+ newline))
           (fun line => Write out (line +:+ newline))).
Qed.

(** With a log level set and a pipe, the scanner started by the call
    writes to [stdout], in order and each with a line feed appended, the
    lines of the intercepted text that the filter with that level as
    minimum lets through, and nothing else. *)
Theorem runner_scanner_filters (cmd dir : string) (args : list string)
        (stdout stderr : Writer) (w : World) (outR outW : File) :
  LogLevel w ≠ "" ->
  os_Pipe w = Ok (outR, outW) ->
  let g := GScanner outR (LevelFilter ValidLevels (LogLevel w) stdout) in
  List.filter is_Scanner (trace (exec (runner Run cmd dir args stdout stderr) w).2)
    = [EvGo g] /\
  forall text n,
    goroutine_writes g text n
    = flat_map (fun line => Write stdout (line +:+ newline))
        (List.filter
           (fun line => LevelFilter_Check ValidLevels (LogLevel w) (line +:+ newline))
           (take n (ScanLines text))).
Proof.
  intros Hl Hp g. subst g. split.
  - assert (Hlf : level_filter (LogLevel w) stdout
                  = LevelFilter ValidLevels (LogLevel w) stdout).
    { unfold level_filter. rewrite bool_decide_eq_true_2 by exact Hl. reflexivity. }
    assert (Hpro : List.filter is_Scanner (prologue dir stdout stderr w) = []).
    { unfold prologue, plugin_warning. destruct (configDir w); reflexivity. }
    destruct (commands !! cmd) as [f|] eqn:Hc.
    + rewrite (runner_dispatch Run cmd f dir args stdout stderr w outR outW Hp Hc).
      cbn [snd trace]. rewrite !List.filter_app, Hpro, Hlf. reflexivity.
    + rewrite (runner_nil_handler Run cmd dir args stdout stderr w outR outW Hp Hc).
      cbn [snd trace]. rewrite !List.filter_app, Hpro, Hlf. reflexivity.
  - intros text n. apply scanner_level_filter.
Qed.

Lemma Write_level_filter (level : string) (stdout : Writer) (p : string) :
  Write (level_filter level stdout) p `sublist_of` Write stdout p.
Proof.
  unfold level_filter. case_bool_decide; simpl.
  - destruct (LevelFilter_Check ValidLevels level p);
      [reflexivity | apply sublist_nil_l].
  - apply sublist_nil_l.
Qed.

(** The filter only drops: whatever the level, what the scanner writes
    through [lf] is, in order, part of what it would write with [stdout]
    itself as its writer; no line is altered, repeated or moved. *)
Theorem scanner_writes_sublist (level : string) (stdout : Writer)
        (text : string) (n : nat) :
  scanner (level_filter level stdout) text n `sublist_of` scanner stdout text n.
Proof.
  unfold scanner. induction (take n (ScanLines text)) as [|line ls IH]; simpl.
  - reflexivity.
  - apply sublist_app; [apply Write_level_filter | exact IH].
Qed.

(** The scanner works through the lines in order: what it has written
    after [n] lines is a prefix of what it has written after more. *)
Theorem scanner_writes_prefix (lf : Writer) (text : string) (n k : nat) :
  scanner lf text n `prefix_of` scanner lf text (n + k).
Proof.
  unfold scanner. rewrite <- take_take_drop, flat_map_app.
  apply prefix_app_r. reflexivity.
Qed.
(** The [Fprintf] calls recorded in the trace, those of the call's own
    goroutine, go to the [stderr] writer. *)
Lemma runner_trace_prints (cmd dir : string) (args : list string)
        (stdout stderr : Writer) (w : World) :
  prints_only_to stderr (trace (exec (runner Run cmd dir args stdout stderr) w).2).
Proof.
  destruct (os_Pipe w) as [[outR outW]|err] eqn:Hp;
    [destruct (commands !! cmd) as [f|] eqn:Hc|].
  - rewrite (runner_dispatch Run cmd f dir args stdout stderr w outR outW Hp Hc).
    cbn [snd trace]. unfold prints_only_to. rewrite !Forall_app.
    split_and!; [apply prologue_prints | repeat constructor | apply epilogue_prints].
  - rewrite (runner_nil_handler Run cmd dir args stdout stderr w outR outW Hp Hc).
    cbn [snd trace]. unfold prints_only_to. rewrite !Forall_app.
    split_and!; [apply prologue_prints | repeat constructor | apply epilogue_prints].
  - rewrite (runner_pipe_fails Run cmd dir args stdout stderr w err Hp).
    cbn [snd trace]. unfold prints_only_to. rewrite !Forall_app.
    split_and!; [apply prologue_prints | repeat constructor | apply epilogue_prints].
Qed.


Lemma runner_spawned (cmd dir : string) (args : list string)
      (stdout stderr : Writer) (w : World) :
  spawned (trace (exec (runner Run cmd dir args stdout stderr) w).2)
  = GForward (S (chans w)) (chans w)
    :: match os_Pipe w with
       | Ok (outR, _) => [GScanner outR (level_filter (LogLevel w) stdout)]
       | Err _ => []
       end.
Proof.
  destruct (os_Pipe w) as [[outR outW]|err] eqn:Hp;
    [destruct (commands !! cmd) as [f|] eqn:Hc|].
  - rewrite (runner_dispatch Run cmd f dir args stdout stderr w outR outW Hp Hc).
    cbn [snd trace]. unfold spawned. rewrite !omap_app.
    fold (spawned (prologue dir stdout stderr w)). rewrite prologue_spawned. reflexivity.
  - rewrite (runner_nil_handler Run cmd dir args stdout stderr w outR outW Hp Hc).
    cbn [snd trace]. unfold spawned. rewrite !omap_app.
    fold (spawned (prologue dir stdout stderr w)). rewrite prologue_spawned. reflexivity.
  - rewrite (runner_pipe_fails Run cmd dir args stdout stderr w err Hp).
    cbn [snd trace]. unfold spawned. rewrite !omap_app.
    fold (spawned (prologue dir stdout stderr w)). rewrite prologue_spawned. reflexivity.
Qed.

Lemma scanner_through_filter (level : string) (stdout : Writer) (text : string) (n : nat) :
  scanner (level_filter level stdout) text n `sublist_of` scanner stdout text n.
Proof.
  unfold scanner. induction (take n (ScanLines text)) as [|line ls IH]; simpl.
  - reflexivity.
  - apply sublist_app; [apply Write_level_filter | exact IH].
Qed.

(** The [Fprintf] calls of a call of [runner], on every path. Those of
    the call's own goroutine, the report of [globalPluginDirs] and the
    pipe error, go to the [stderr] writer. The one other is that of the
    scanner goroutine, which writes to [lf]: the goroutines started are
    the forwarder, which writes nothing, and with a pipe the scanner
    with [lf] as its writer, so that what a goroutine of the call writes
    is, in order, part of the lines written straight to [stdout]. *)
Theorem runner_fprintf_targets (cmd dir : string) (args : list string)
        (stdout stderr : Writer) (w : World) :
  let tr := trace (exec (runner Run cmd dir args stdout stderr) w).2 in
  prints_only_to stderr tr /\
  (forall g, g ∈ spawned tr ->
     g = GForward (S (chans w)) (chans w) \/
     exists outR, g = GScanner outR (level_filter (LogLevel w) stdout)) /\
  (forall g text n, g ∈ spawned tr ->
     goroutine_writes g text n `sublist_of` scanner stdout text n).
Proof.
  intros tr. subst tr.
  assert (Hg : forall g,
             g ∈ spawned (trace (exec (runner Run cmd dir args stdout stderr) w).2) ->
             g = GForward (S (chans w)) (chans w) \/
             exists outR, g = GScanner outR (level_filter (LogLevel w) stdout)).
  { intros g. rewrite runner_spawned.
    destruct (os_Pipe w) as [[outR outW]|err]; rewrite ?elem_of_cons.
    - intros [->|[->|Hin]]; [left; reflexivity | right; eexists; reflexivity | inversion Hin].
    - intros [->|Hin]; [left; reflexivity | inversion Hin]. }
  split_and!.
  - apply runner_trace_prints.
  - exact Hg.
  - intros g text n Hin. destruct (Hg g Hin) as [->|[outR ->]]; simpl.
    + apply sublist_nil_l.
    + apply scanner_through_filter.
Qed.
End ScannerMore.

Lemma runner_scanner_filters_witness :
  @goroutine_writes tagged_imports
    (GScanner 7%nat (LevelFilter ["TRACE"; "DEBUG"; "INFO"; "WARN"; "ERROR"] "WARN" (Sink 1)))
    ("[WARN] disk" +:+ newline +:+ "[INFO] ok" +:+ newline +:+ "[WARN] net" +:+ newline) 3
  = [(DSink 1, "[WARN] disk" +:+ newline); (DSink 1, "[WARN] net" +:+ newline)].
Proof.
  assert (Hl : LogLevel warn_level_world ≠ "") by discriminate.
  exact (proj2 (@runner_scanner_filters tagged_imports sample_Run "apply" "data" []
                  (Sink 1) (Sink 2) warn_level_world 7%nat 8%nat Hl eq_refl)
           ("[WARN] disk" +:+ newline +:+ "[INFO] ok" +:+ newline +:+ "[WARN] net" +:+ newline)
           3%nat).
Defined.

Lemma runner_fprintf_targets_witness :
  let text := "[WARN] disk" +:+ newline +:+ "[INFO] ok" +:+ newline in
  @goroutine_writes tagged_imports
    (GScanner 7%nat (LevelFilter ["TRACE"; "DEBUG"; "INFO"; "WARN"; "ERROR"] "WARN" (Sink 1)))
    text 2
  `sublist_of` @scanner tagged_imports (Sink 1) text 2.
Proof.
  cbv zeta.
  apply (proj2 (proj2 (@runner_fprintf_targets tagged_imports sample_Run "apply" "data" []
                         (Sink 1) (Sink 2) warn_level_world))).
  vm_compute. constructor. constructor.
Defined.

(** ** More on the table, the wrappers and [Version] *)

(** Every entry of the table hands the [Meta] it is given on to the
    command unchanged, and only the entry "destroy" builds a destroy. *)
Theorem commands_pass_meta (cmd : string) (f : cmdFunc) (meta : Meta) :
  commands !! cmd = Some f ->
  Command_Meta (f meta) = meta /\
  (is_destroy (f meta) = true <-> cmd = "destroy").
Proof.
  rewrite commands_lookup.
  repeat case_bool_decide; intros Hf; inversion Hf; subst; simpl;
    (split; [reflexivity | split; congruence]).
Qed.

Lemma commands_pass_meta_witness :
  Command_Meta (ApplyCommand (mkMeta false [] (mkBasicUi (Sink 1) (Sink 2)) "data" 0%nat) true)
  = mkMeta false [] (mkBasicUi (Sink 1) (Sink 2)) "data" 0%nat /\
  (is_destroy (ApplyCommand (mkMeta false [] (mkBasicUi (Sink 1) (Sink 2)) "data" 0%nat) true)
   = true <-> "destroy" = "destroy").
Proof.
  exact (commands_pass_meta "destroy" (fun meta => ApplyCommand meta true)
           (mkMeta false [] (mkBasicUi (Sink 1) (Sink 2)) "data" 0%nat) eq_refl).
Defined.

(** With a pipe, [Apply], [Destroy] and [Init] call the handler of an
    [ApplyCommand], of an [ApplyCommand] with [Destroy] set and of an
    [InitCommand], each on the same [Meta] and in the same process
    state, with the arguments given; the exit code of that handler is
    their result. *)
Theorem wrappers_run_their_commands {I : Imports} (datadir : string)
        (args : list string) (stdout stderr : Writer) (w : World) (p : File * File) :
  os_Pipe w = Ok p ->
  exists meta w1,
    OverrideDataDir meta = datadir /\
    forall Run,
      (exec (Apply Run datadir args stdout stderr) w).1
        = Returned (Run (ApplyCommand meta false) args w1).1 /\
      (exec (Destroy Run datadir args stdout stderr) w).1
        = Returned (Run (ApplyCommand meta true) args w1).1 /\
      (exec (Init Run datadir args stdout stderr) w).1
        = Returned (Run (InitCommand meta) args w1).1.
Proof.
  intros Hp. destruct p as [outR outW].
  exists (built_meta datadir stdout stderr w), (world_at_Run stdout outW w).
  split; [reflexivity|]. intros Run. unfold Apply, Destroy, Init.
  rewrite (runner_dispatch Run "apply" _ datadir args stdout stderr w outR outW Hp eq_refl).
  rewrite (runner_dispatch Run "destroy" _ datadir args stdout stderr w outR outW Hp eq_refl).
  rewrite (runner_dispatch Run "init" _ datadir args stdout stderr w outR outW Hp eq_refl).
  split_and!; reflexivity.
Qed.

Lemma wrappers_run_their_commands_witness :
  (exec (@Apply unix_imports sample_Run "data" [] (Sink 1) (Sink 2)) quiet_world).1
    = Returned 0 /\
  (exec (@Destroy unix_imports sample_Run "data" [] (Sink 1) (Sink 2)) quiet_world).1
    = Returned 3 /\
  (exec (@Init unix_imports sample_Run "data" [] (Sink 1) (Sink 2)) quiet_world).1
    = Returned 2.
Proof.
  destruct (@wrappers_run_their_commands unix_imports "data" [] (Sink 1) (Sink 2)
              quiet_world (7%nat, 8%nat) eq_refl) as (meta & w1 & _ & H).
  destruct (H sample_Run) as (H1 & H2 & H3).
  split_and!; [rewrite H1 | rewrite H2 | rewrite H3]; reflexivity.
Defined.

Lemma string_app_empty_r (s : string) : s +:+ "" = s.
Proof.
  induction s as [|c s IH]; [reflexivity|].
  change (String c (s +:+ "") = String c s). rewrite IH. reflexivity.
Qed.

Lemma string_app_assoc (s1 s2 s3 : string) : (s1 +:+ s2) +:+ s3 = s1 +:+ (s2 +:+ s3).
Proof.
  induction s1 as [|c s1 IH]; [reflexivity|].
  change (String c ((s1 +:+ s2) +:+ s3) = String c (s1 +:+ (s2 +:+ s3))).
  rewrite IH. reflexivity.
Qed.

(** The string as version followed by a suffix. *)
Lemma Version_suffix (v p : string) :
  Version v p
  = "Terraform v" +:+ v +:+ (if bool_decide (p ≠ "") then "-" +:+ p else "").
Proof.
  unfold Version, Fprintf_buf. case_bool_decide.
  - rewrite string_app_assoc. reflexivity.
  - rewrite string_app_empty_r. reflexivity.
Qed.

Lemma Version_prerelease_inj (v p1 p2 : string) :
  Version v p1 = Version v p2 -> p1 = p2.
Proof.
  rewrite !Version_suffix. intros Heq.
  apply (inj (String.app "Terraform v")) in Heq.
  apply (inj (String.app v)) in Heq.
  destruct (decide (p1 = "")) as [->|H1], (decide (p2 = "")) as [->|H2].
  - reflexivity.
  - rewrite bool_decide_eq_false_2 in Heq by (intros Hn; apply Hn; reflexivity).
    rewrite bool_decide_eq_true_2 in Heq by exact H2. discriminate Heq.
  - rewrite bool_decide_eq_true_2 in Heq by exact H1.
    rewrite bool_decide_eq_false_2 in Heq by (intros Hn; apply Hn; reflexivity).
    discriminate Heq.
  - rewrite !bool_decide_eq_true_2 in Heq by assumption.
    apply (inj (String.app "-")) in Heq. exact Heq.
Qed.

(** For one version, different prereleases give different strings; in
    particular a prerelease never reads as a release. *)
Theorem Version_prerelease_distinct (v p1 p2 : string) :
  p1 ≠ p2 -> Version v p1 ≠ Version v p2.
Proof.
  intros Hne Heq. apply Hne. exact (Version_prerelease_inj v p1 p2 Heq).
Qed.

Lemma Version_prerelease_distinct_witness :
  Version "0.11.8" "rc1" ≠ Version "0.11.8" "".
Proof.
  apply (Version_prerelease_distinct "0.11.8" "rc1" ""). discriminate.
Defined.

(** The string does not tell a prerelease from a version that ends in a
    dash and the same text. *)
Theorem Version_dash_ambiguity (v p : string) :
  p ≠ "" -> Version (v +:+ "-" +:+ p) "" = Version v p.
Proof.
  intros Hp. rewrite !Version_suffix.
  rewrite (bool_decide_eq_true_2 (p ≠ "") Hp).
  rewrite (bool_decide_eq_false_2 ("" ≠ "")) by (intros Hn; apply Hn; reflexivity).
  rewrite string_app_empty_r. reflexivity.
Qed.

Lemma Version_dash_ambiguity_witness :
  Version "0.12.0-beta1" "" = Version "0.12.0" "beta1".
Proof.
  apply (Version_dash_ambiguity "0.12.0" "beta1"). discriminate.
Defined.

(** ** Calls in sequence *)

Section Sequence.
Context {I : Imports}.
Variable Run : Command -> list string -> World -> Z * World.

Lemma runner_world_after (cmd dir : string) (args : list string)
      (stdout stderr : Writer) (w : World) :
  let r := exec (runner Run cmd dir args stdout stderr) w in
  os_Stderr (world r.2) = os_Stderr w /\
  log_output (world r.2) = FileWriter (os_Stderr w).
Proof.
  intros r. subst r.
  destruct (os_Pipe w) as [[outR outW]|err] eqn:Hp;
    [destruct (commands !! cmd) as [f|] eqn:Hc|].
  - rewrite (runner_dispatch Run cmd f dir args stdout stderr w outR outW Hp Hc).
    split; reflexivity.
  - rewrite (runner_nil_handler Run cmd dir args stdout stderr w outR outW Hp Hc).
    split; reflexivity.
  - rewrite (runner_pipe_fails Run cmd dir args stdout stderr w err Hp).
    split; reflexivity.
Qed.

(** Calls of [runner] one after the other, as an init followed by an
    apply: whatever the handlers did and however each call ended,
    [os.Stderr] is after the second call the file it was before the
    first, and the logger writes to that file. *)
Theorem runner_twice_restores_stderr (cmd1 dir1 : string) (args1 : list string)
        (cmd2 dir2 : string) (args2 : list string)
        (stdout stderr : Writer) (w : World) :
  let r1 := exec (runner Run cmd1 dir1 args1 stdout stderr) w in
  let r2 := exec (runner Run cmd2 dir2 args2 stdout stderr) (world r1.2) in
  os_Stderr (world r2.2) = os_Stderr w /\
  log_output (world r2.2) = FileWriter (os_Stderr w).
Proof.
  intros r1 r2. subst r1 r2.
  destruct (runner_world_after cmd1 dir1 args1 stdout stderr w) as [H1 _].
  destruct (runner_world_after cmd2 dir2 args2 stdout stderr
              (world (exec (runner Run cmd1 dir1 args1 stdout stderr) w).2))
    as [H2 H3].
  rewrite H3, H2, H1. split; reflexivity.
Qed.
End Sequence.
